(** * ExpensePro: the ledger service of [src/app.py], embedded and verified

    The development follows the Flask service of [src/app.py]: the calendar
    arithmetic of Python's [datetime.date] that the period resolver relies on,
    the [Category] and [Expense] tables of the SQLAlchemy model, and the
    handlers [categories], [edit_category], [expenses], [edit_expense],
    [import_csv], [export_csv], [summary] and [analysis].

    Modelling conventions.
    - Python [int] is [Z]; a [date] is a record of year, month and day whose
      constructor check ([_check_date_fields]) is the predicate [valid_date];
      date arithmetic that leaves the years 1 to 9999 raises, and is [None].
    - [Expense.amount] is a [db.Float]; it is modelled by an exact integer
      (an amount in minor units), so sums and differences are exact and
      rounding is outside the model.
    - A table is the list of its rows in insertion order; a primary key is
      allocated as one more than the largest key of the table.
    - The SQLAlchemy session is a pair of stores: what is committed, and the
      view of the running request.  A handler maps the committed store to
      its response and the store committed when the request is over.
    - An exception inside a handler is its [except Exception]: status 500.
    - The authenticated tenant ([get_jwt_identity]) and the clock
      ([datetime.now]) are arguments of the handlers. *)

From Stdlib Require Import ZArith List Bool Lia String Ascii.
From Stdlib Require Import Permutation Sorted.
From Stdlib Require DecimalString DecimalZ.
Import ListNotations.
Open Scope Z_scope.

(** ** Python's [datetime.date] *)

Module PyDate.

Record date := mkdate { year : Z; month : Z; day : Z }.

Definition MINYEAR := 1.
Definition MAXYEAR := 9999.

(** [_is_leap] *)
Definition is_leap (y : Z) : bool :=
  (y mod 4 =? 0) && (negb (y mod 100 =? 0) || (y mod 400 =? 0)).

(** [_days_before_year] *)
Definition days_before_year (y : Z) : Z :=
  let y1 := y - 1 in y1 * 365 + y1 / 4 - y1 / 100 + y1 / 400.

(** [_DAYS_IN_MONTH] *)
Definition DAYS_IN_MONTH (m : Z) : Z :=
  match m with
  | 1 => 31 | 2 => 28 | 3 => 31 | 4 => 30 | 5 => 31 | 6 => 30
  | 7 => 31 | 8 => 31 | 9 => 30 | 10 => 31 | 11 => 30 | 12 => 31
  | _ => -1
  end.

(** [_DAYS_BEFORE_MONTH] *)
Definition DAYS_BEFORE_MONTH (m : Z) : Z :=
  match m with
  | 1 => 0 | 2 => 31 | 3 => 59 | 4 => 90 | 5 => 120 | 6 => 151
  | 7 => 181 | 8 => 212 | 9 => 243 | 10 => 273 | 11 => 304 | 12 => 334
  | _ => -1
  end.

(** [_days_in_month] *)
Definition days_in_month (y m : Z) : Z :=
  if (m =? 2) && is_leap y then 29 else DAYS_IN_MONTH m.

(** [_days_before_month] *)
Definition days_before_month (y m : Z) : Z :=
  DAYS_BEFORE_MONTH m + (if (2 <? m) && is_leap y then 1 else 0).

(** [_ymd2ord] *)
Definition ymd2ord (y m d : Z) : Z :=
  days_before_year y + days_before_month y m + d.

Definition DI400Y := 146097.
Definition DI100Y := 36524.
Definition DI4Y := 1461.

(** the tail of [_ord2ymd]: month and day from the 0-based day of the year *)
Definition month_day (y : Z) (leapyear : bool) (n : Z) : date :=
  let m := Z.shiftr (n + 50) 5 in
  let preceding := DAYS_BEFORE_MONTH m + (if (2 <? m) && leapyear then 1 else 0) in
  if n <? preceding then
    let m' := m - 1 in
    let preceding' :=
      preceding - (DAYS_IN_MONTH m' + (if (m' =? 2) && leapyear then 1 else 0)) in
    mkdate y m' (n - preceding' + 1)
  else mkdate y m (n - preceding + 1).

(** [_ord2ymd] *)
Definition ord2ymd (n0 : Z) : date :=
  let n := n0 - 1 in
  let n400 := n / DI400Y in
  let n := n mod DI400Y in
  let y := n400 * 400 + 1 in
  let n100 := n / DI100Y in
  let n := n mod DI100Y in
  let n4 := n / DI4Y in
  let n := n mod DI4Y in
  let n1 := n / 365 in
  let n := n mod 365 in
  let y := y + n100 * 100 + n4 * 4 + n1 in
  if (n1 =? 4) || (n100 =? 4) then mkdate (y - 1) 12 31
  else
    let leapyear := (n1 =? 3) && (negb (n4 =? 24) || (n100 =? 3)) in
    month_day y leapyear n.

(** [_check_date_fields], as a test and as a proposition *)
Definition check_date_fields (y m d : Z) : bool :=
  (MINYEAR <=? y) && (y <=? MAXYEAR) && (1 <=? m) && (m <=? 12)
  && (1 <=? d) && (d <=? days_in_month y m).

Definition valid_date (d : date) : Prop :=
  check_date_fields (year d) (month d) (day d) = true.

(** [date(y, m, d)]: the constructor raises [ValueError] on bad fields *)
Definition make_date (y m d : Z) : option date :=
  if check_date_fields y m d then Some (mkdate y m d) else None.

Definition toordinal (d : date) : Z := ymd2ord (year d) (month d) (day d).

Definition MAXORDINAL := 3652059.

(** [date.fromordinal] on an ordinal the caller has range-checked *)
Definition fromordinal (n : Z) : date := ord2ymd n.

(** [date.weekday]: Monday is 0 *)
Definition weekday (d : date) : Z := (toordinal d + 6) mod 7.

(** [date + timedelta(days=k)]; [None] is [OverflowError] *)
Definition add_days (d : date) (k : Z) : option date :=
  let o := toordinal d + k in
  if (0 <? o) && (o <=? MAXORDINAL) then Some (fromordinal o) else None.

(** [date - timedelta(days=k)] *)
Definition sub_days (d : date) (k : Z) : option date := add_days d (- k).

(** [date.replace]; [None] is [ValueError] *)
Definition replace_day (d : date) (dd : Z) : option date :=
  make_date (year d) (month d) dd.

Definition replace_month_day (d : date) (mm dd : Z) : option date :=
  make_date (year d) mm dd.

(** comparison of dates is comparison of [(year, month, day)] *)
Definition date_cmp (a b : date) : comparison :=
  match year a ?= year b with
  | Eq => match month a ?= month b with
          | Eq => day a ?= day b
          | c => c
          end
  | c => c
  end.

Definition date_leb (a b : date) : bool :=
  match date_cmp a b with Gt => false | _ => true end.

Definition date_eqb (a b : date) : bool :=
  (year a =? year b) && (month a =? month b) && (day a =? day b).

(** the number of days of a year *)
Definition year_len (y : Z) : Z := 365 + (if is_leap y then 1 else 0).

End PyDate.

Import PyDate.


(** bounded universal test over [lo, lo + n), used to settle finite case
    analyses (days of a year, months) by evaluation *)
Fixpoint range_all (f : Z -> bool) (lo : Z) (n : nat) : bool :=
  match n with
  | O => true
  | S k => f lo && range_all f (lo + 1) k
  end.

(** ** Text forms of dates and amounts *)

Module PyText.

(** the value of a decimal digit character *)
Definition digit_of (c : ascii) : option Z :=
  let n := Z.of_N (N_of_ascii c) in
  if (48 <=? n) && (n <=? 57) then Some (n - 48) else None.

Definition digit_char (k : Z) : ascii := ascii_of_N (Z.to_N (48 + k)).

(** ["%02d"] on a number below 100 *)
Definition pad2 (n : Z) (rest : string) : string :=
  String (digit_char (n / 10)) (String (digit_char (n mod 10)) rest).

(** [date.isoformat]: ["%04d-%02d-%02d"] *)
Definition isoformat (d : date) : string :=
  pad2 (year d / 100) (pad2 (year d mod 100)
    (String "-" (pad2 (month d) (String "-" (pad2 (day d) EmptyString))))).

(** [%m] of [strptime]: the regular expression [1[0-2]|0[1-9]|[1-9]],
    followed by the ["-"] of the format; returns the month and what follows *)
Definition parse_month (s : string) : option (Z * string) :=
  match s with
  | String c1 (String "-" rest) =>
      match digit_of c1 with
      | Some k => if 1 <=? k then Some (k, rest) else None
      | None => None
      end
  | String c1 (String c2 (String "-" rest)) =>
      match digit_of c1, digit_of c2 with
      | Some 1, Some k => if k <=? 2 then Some (10 + k, rest) else None
      | Some 0, Some k => if 1 <=? k then Some (k, rest) else None
      | _, _ => None
      end
  | _ => None
  end.

(** [%d] of [strptime]: [3[0-1]|[1-2]\d|0[1-9]|[1-9]| [1-9]], which must
    reach the end of the text (else "unconverted data remains") *)
Definition parse_day (s : string) : option Z :=
  match s with
  | String c1 EmptyString =>
      match digit_of c1 with
      | Some k => if 1 <=? k then Some k else None
      | None => None
      end
  | String " " (String c2 EmptyString) =>
      match digit_of c2 with
      | Some k => if 1 <=? k then Some k else None
      | None => None
      end
  | String c1 (String c2 EmptyString) =>
      match digit_of c1, digit_of c2 with
      | Some 3, Some k => if k <=? 1 then Some (30 + k) else None
      | Some 2, Some k => Some (20 + k)
      | Some 1, Some k => Some (10 + k)
      | Some 0, Some k => if 1 <=? k then Some k else None
      | _, _ => None
      end
  | _ => None
  end.

(** [datetime.strptime(s, "%Y-%m-%d").date()]; [None] is [ValueError] *)
Definition strptime_ymd (s : string) : option date :=
  match s with
  | String y1 (String y2 (String y3 (String y4 (String "-" rest)))) =>
      match digit_of y1, digit_of y2, digit_of y3, digit_of y4 with
      | Some a, Some b, Some c, Some e =>
          match parse_month rest with
          | Some (m, rest') =>
              match parse_day rest' with
              | Some d => make_date (1000 * a + 100 * b + 10 * c + e) m d
              | None => None
              end
          | None => None
          end
      | _, _, _, _ => None
      end
  | _ => None
  end.

(** [str(amount)] and [float(text)] on the exact amounts of the model:
    decimal integers; [None] is [ValueError] *)
Definition amount_str (a : Z) : string :=
  DecimalString.NilZero.string_of_int (Z.to_int a).

Definition float_of_str (s : string) : option Z :=
  option_map Z.of_int (DecimalString.NilZero.int_of_string s).

(** [s.endswith(suffix)] *)
Definition endswith (s suffix : string) : bool :=
  let n := String.length s in
  let k := String.length suffix in
  Nat.leb k n && String.eqb (substring (n - k) k s) suffix.

(** Python truthiness of an optional text: neither [None] nor empty *)
Definition truthy (o : option string) : bool :=
  match o with
  | Some s => negb (String.eqb s EmptyString)
  | None => false
  end.

(** [x or (empty text)] on an optional text *)
Definition or_empty (o : option string) : string :=
  match o with
  | Some s => s
  | None => EmptyString
  end.

End PyText.

Import PyText.

(** ** The tables *)

Record Category := mkCategory {
  c_id : Z;
  c_user_id : Z;
  c_name : string;
  c_type : string
}.

Record Expense := mkExpense {
  e_id : Z;
  e_user_id : Z;
  e_category_id : Z;
  e_amount : Z;
  e_date : date;
  e_merchant : option string;
  e_account : option string;
  e_project : option string;
  e_tags : option string;
  e_note : option string
}.

Record Store := mkStore {
  categories_tbl : list Category;
  expenses_tbl : list Expense
}.

Definition empty_store : Store := mkStore [] [].

(** the integer primary key of a new row *)
Definition next_id (ids : list Z) : Z := 1 + fold_right Z.max 0 ids.

Definition add_category (s : Store) (c : Category) : Store :=
  mkStore (categories_tbl s ++ [c]) (expenses_tbl s).

Definition add_expense (s : Store) (e : Expense) : Store :=
  mkStore (categories_tbl s) (expenses_tbl s ++ [e]).

(** replace, or delete, the first row that satisfies [p]: the row object
    that [.first()] returned *)
Fixpoint update_first {A} (p : A -> bool) (f : A -> A) (l : list A) : list A :=
  match l with
  | [] => []
  | x :: r => if p x then f x :: r else x :: update_first p f r
  end.

Fixpoint delete_first {A} (p : A -> bool) (l : list A) : list A :=
  match l with
  | [] => []
  | x :: r => if p x then r else x :: delete_first p r
  end.

(** ** Responses *)

Record SummaryResult := mkSummary {
  total_income : Z;
  total_expense : Z;
  balance : Z;
  sr_period : string;
  from_date : string;
  to_date : string;
  currency : string
}.

(** the [group] of an analysis record: a category id, a text, or [null] *)
Inductive GroupVal := GInt (z : Z) | GStr (s : string) | GNull.

(** one record of the analysis response; a key that the period does not
    set is absent *)
Record ResultDict := mkResult {
  rd_group : GroupVal;
  rd_total : Z;
  rd_date : option string;
  rd_year : option Z;
  rd_month : option Z;
  rd_week : option Z
}.

Inductive Body :=
| Msg (m : string)
| MsgId (m : string) (id : Z)
| CategoryList (l : list Category)
| ExpenseList (l : list Expense)
| CsvFile (table : list (list string))
| SummaryBody (r : SummaryResult)
| AnalysisBody (l : list ResultDict).

Definition Response := (Z * Body)%type.

(** what every handler's [except Exception] answers *)
Definition internal_error : Response := (500, Msg "Internal server error").

(** ** Helpers of the service *)

(** [validate_date] *)
Definition validate_date (date_str : string) : option date :=
  strptime_ymd date_str.

(** a JSON scalar other than [null] *)
Inductive JVal := JInt (z : Z) | JStr (s : string).

(** a JSON object ([V] is [JVal]) or a row of [csv.DictReader] ([V] is
    [string]): keys with values, [None] for [null] / a missing cell *)
Definition Dict (V : Type) := list (string * option V).

Fixpoint dict_get {V} (k : string) (d : Dict V) : option (option V) :=
  match d with
  | [] => None
  | (k', v) :: r => if String.eqb k k' then Some v else dict_get k r
  end.

(** [k in data] *)
Definition has_key {V} (d : Dict V) (k : string) : bool :=
  match dict_get k d with
  | Some _ => true
  | None => false
  end.

(** [data.get(k)]: an absent key reads as [None] *)
Definition get {V} (d : Dict V) (k : string) : option V :=
  match dict_get k d with
  | Some v => v
  | None => None
  end.

(** [validate_required_fields]: the message of the first field that is
    absent or [None], or nothing *)
Fixpoint validate_required_fields {V} (data : Dict V) (fields : list string)
  : option string :=
  match fields with
  | [] => None
  | field :: rest =>
      match dict_get field data with
      | Some (Some _) => validate_required_fields data rest
      | _ => Some (String.append "Missing required field: " field)
      end
  end.

(** reading a JSON scalar at the type the column has; a scalar of the other
    JSON type is outside the model and reads as nothing *)
Definition as_int (v : JVal) : option Z :=
  match v with
  | JInt z => Some z
  | JStr _ => None
  end.

Definition as_text (v : JVal) : option string :=
  match v with
  | JStr s => Some s
  | JInt _ => None
  end.

(** [float(v)]; [None] is [ValueError] *)
Definition float_of (v : JVal) : option Z :=
  match v with
  | JInt z => Some z
  | JStr s => float_of_str s
  end.

(** [data.get(k)] for a text column *)
Definition get_text (d : Dict JVal) (k : string) : option string :=
  match get d k with
  | Some v => as_text v
  | None => None
  end.

(** ** The request *)

Inductive Method := GET | POST | PATCH | DELETE.

(** Flask's [request]: the method, the JSON body, the query arguments and
    the uploaded file (its name and the table of cells that [csv] reads
    from it, header first) *)
Record HttpRequest := mkRequest {
  method : Method;
  json : Dict JVal;
  args : Dict string;
  file : option (string * list (list string))
}.

Definition method_not_allowed : Response := (405, Msg "Method Not Allowed").

(** ** Categories *)

(** [Category.query.filter_by(id=cid, user_id=uid).first()] *)
Definition category_of_user (s : Store) (cid uid : Z) : option Category :=
  find (fun c => (c_id c =? cid) && (c_user_id c =? uid)) (categories_tbl s).

(** [Category.query.filter_by(user_id=uid, name=name).first()] *)
Definition category_by_name (s : Store) (uid : Z) (name : string)
  : option Category :=
  find (fun c => (c_user_id c =? uid) && String.eqb (c_name c) name)
       (categories_tbl s).

(** [Category.query.get(cid)] *)
Definition category_by_id (s : Store) (cid : Z) : option Category :=
  find (fun c => c_id c =? cid) (categories_tbl s).

(** [categories]: GET lists the caller's categories, POST adds one *)
Definition categories (s : Store) (uid : Z) (request : HttpRequest)
  : Response * Store :=
  match method request with
  | POST =>
      let data := json request in
      match validate_required_fields data ["name"%string] with
      | Some msg => ((400, Msg msg), s)
      | None =>
          match get_text data "name",
                match get data "type" with
                | Some v => as_text v
                | None => Some "expense"%string
                end with
          | Some name, Some type =>
              let cat := mkCategory (next_id (map c_id (categories_tbl s)))
                                    uid name type in
              ((201, MsgId "Category added" (c_id cat)), add_category s cat)
          | _, _ => (internal_error, s)
          end
      end
  | GET =>
      ((200, CategoryList
               (filter (fun c => c_user_id c =? uid) (categories_tbl s))), s)
  | _ => (method_not_allowed, s)
  end.

(** the assignments of [edit_category]'s PATCH; [None] when the commit
    fails ([name] set to [null], or to a value that is not text) *)
Definition patch_category (cat : Category) (data : Dict JVal)
  : option Category :=
  let name :=
    match dict_get "name" data with
    | None => Some (c_name cat)
    | Some (Some (JStr n)) => Some n
    | Some _ => None
    end in
  let type :=
    match dict_get "type" data with
    | Some (Some (JStr t)) =>
        if String.eqb t "expense" || String.eqb t "income" then t
        else c_type cat
    | _ => c_type cat
    end in
  match name with
  | Some n => Some (mkCategory (c_id cat) (c_user_id cat) n type)
  | None => None
  end.

(** [edit_category]; a category that is absent for this caller makes
    [first_or_404] raise, which the handler's [except Exception] answers *)
Definition edit_category (s : Store) (uid : Z) (cid : Z)
  (request : HttpRequest) : Response * Store :=
  let mine := fun c => (c_id c =? cid) && (c_user_id c =? uid) in
  match category_of_user s cid uid with
  | None => (internal_error, s)
  | Some cat =>
      match method request with
      | PATCH =>
          match patch_category cat (json request) with
          | Some cat' =>
              ((200, Msg "Category updated"),
               mkStore (update_first mine (fun _ => cat') (categories_tbl s))
                       (expenses_tbl s))
          | None => (internal_error, s)
          end
      | DELETE =>
          ((200, Msg "Category deleted"),
           mkStore (delete_first mine (categories_tbl s)) (expenses_tbl s))
      | _ => (method_not_allowed, s)
      end
  end.

(** ** Expenses *)

(** [Expense.query.filter_by(id=eid, user_id=uid).first()] *)
Definition expense_of_user (s : Store) (eid uid : Z) : option Expense :=
  find (fun e => (e_id e =? eid) && (e_user_id e =? uid)) (expenses_tbl s).

(** stable insertion sort, for [ORDER BY] and [list.sort] *)
Fixpoint insert_by {A} (leb : A -> A -> bool) (x : A) (l : list A) : list A :=
  match l with
  | [] => [x]
  | y :: r => if leb x y then x :: y :: r else y :: insert_by leb x r
  end.

Definition sort_by {A} (leb : A -> A -> bool) (l : list A) : list A :=
  fold_right (insert_by leb) [] l.

(** the optional [from] and [to] bounds of [expenses] and [export_csv]:
    a bound that is present must parse; the result is the filter *)
Definition date_bounds (args : Dict string)
  : string + (Expense -> bool) :=
  match dict_get "from" args with
  | Some (Some f) =>
      match validate_date f with
      | None => inl "Invalid from date format"%string
      | Some df =>
          match dict_get "to" args with
          | Some (Some t) =>
              match validate_date t with
              | None => inl "Invalid to date format"%string
              | Some dt =>
                  inr (fun e => date_leb df (e_date e) && date_leb (e_date e) dt)
              end
          | _ => inr (fun e => date_leb df (e_date e))
          end
      end
  | _ =>
      match dict_get "to" args with
      | Some (Some t) =>
          match validate_date t with
          | None => inl "Invalid to date format"%string
          | Some dt => inr (fun e => date_leb (e_date e) dt)
          end
      | _ => inr (fun _ => true)
      end
  end.

(** [expenses]: POST adds a transaction of the caller, GET lists them,
    latest first *)
Definition expenses (s : Store) (uid : Z) (request : HttpRequest)
  : Response * Store :=
  match method request with
  | POST =>
      let data := json request in
      match validate_required_fields data
              ["category_id"; "amount"; "date"]%string with
      | Some msg => ((400, Msg msg), s)
      | None =>
          match get data "date" with
          | Some (JStr date_str) =>
              match validate_date date_str with
              | None => ((400, Msg "Invalid date format"), s)
              | Some date_obj =>
                  match match get data "category_id" with
                        | Some (JInt cid) =>
                            match category_of_user s cid uid with
                            | Some _ => Some cid
                            | None => None
                            end
                        | _ => None
                        end with
                  | None => ((400, Msg "Invalid category"), s)
                  | Some cid =>
                      match match get data "amount" with
                            | Some v => float_of v
                            | None => None
                            end with
                      | None => (internal_error, s)
                      | Some amount =>
                          let exp :=
                            mkExpense (next_id (map e_id (expenses_tbl s)))
                              uid cid amount date_obj
                              (get_text data "merchant")
                              (get_text data "account")
                              (get_text data "project")
                              (get_text data "tags")
                              (get_text data "note") in
                          ((201, MsgId "Expense added" (e_id exp)),
                           add_expense s exp)
                      end
                  end
              end
          | _ => (internal_error, s)
          end
      end
  | GET =>
      match date_bounds (args request) with
      | inl msg => ((400, Msg msg), s)
      | inr in_range =>
          ((200, ExpenseList
                   (sort_by (fun a b => date_leb (e_date b) (e_date a))
                      (filter (fun e => (e_user_id e =? uid) && in_range e)
                              (expenses_tbl s)))), s)
      end
  | _ => (method_not_allowed, s)
  end.

(** one [setattr(exp, field, data[field])] of a text column *)
Definition patch_text (data : Dict JVal) (field : string)
  (old : option string) : option (option string) :=
  match dict_get field data with
  | None => Some old
  | Some None => Some None
  | Some (Some (JStr t)) => Some (Some t)
  | Some (Some (JInt _)) => None
  end.

(** the [setattr] loop of [edit_expense]; [None] when the commit fails
    ([category_id] or [amount] set to [null], or a value of the wrong JSON
    type).  No test is made on [category_id]. *)
Definition patch_expense (exp : Expense) (data : Dict JVal) : option Expense :=
  let category_id :=
    match dict_get "category_id" data with
    | None => Some (e_category_id exp)
    | Some (Some (JInt c)) => Some c
    | Some _ => None
    end in
  let amount :=
    match dict_get "amount" data with
    | None => Some (e_amount exp)
    | Some (Some v) => float_of v
    | Some None => None
    end in
  match category_id, amount,
        patch_text data "merchant" (e_merchant exp),
        patch_text data "account" (e_account exp),
        patch_text data "project" (e_project exp),
        patch_text data "tags" (e_tags exp),
        patch_text data "note" (e_note exp) with
  | Some c, Some a, Some me, Some ac, Some pr, Some ta, Some no =>
      Some (mkExpense (e_id exp) (e_user_id exp) c a (e_date exp)
              me ac pr ta no)
  | _, _, _, _, _, _, _ => None
  end.

Definition set_date (exp : Expense) (d : date) : Expense :=
  mkExpense (e_id exp) (e_user_id exp) (e_category_id exp) (e_amount exp) d
    (e_merchant exp) (e_account exp) (e_project exp) (e_tags exp) (e_note exp).

(** [edit_expense] *)
Definition edit_expense (s : Store) (uid : Z) (eid : Z)
  (request : HttpRequest) : Response * Store :=
  let mine := fun e => (e_id e =? eid) && (e_user_id e =? uid) in
  let commit := fun (exp' : option Expense) =>
    match exp' with
    | Some e' =>
        ((200, Msg "Expense updated"),
         mkStore (categories_tbl s)
                 (update_first mine (fun _ => e') (expenses_tbl s)))
    | None => (internal_error, s)
    end in
  match expense_of_user s eid uid with
  | None => (internal_error, s)
  | Some exp =>
      match method request with
      | PATCH =>
          let data := json request in
          match dict_get "date" data with
          | None => commit (patch_expense exp data)
          | Some (Some (JStr date_str)) =>
              match validate_date date_str with
              | None => ((400, Msg "Invalid date format"), s)
              | Some date_obj =>
                  commit (option_map (fun e => set_date e date_obj)
                            (patch_expense exp data))
              end
          | Some _ => (internal_error, s)
          end
      | DELETE =>
          ((200, Msg "Expense deleted"),
           mkStore (categories_tbl s) (delete_first mine (expenses_tbl s)))
      | _ => (method_not_allowed, s)
      end
  end.

(** ** Import and export *)

(** one row of [csv.DictReader]: [dict(zip(fieldnames, row))], a short row
    padded with [None]; a later duplicate of a field name wins, so the
    pairs are kept latest first *)
Fixpoint zip_row (names : list string) (cells : list string)
  : Dict string :=
  match names with
  | [] => []
  | n :: ns =>
      match cells with
      | [] => (n, None) :: zip_row ns []
      | c :: cs => (n, Some c) :: zip_row ns cs
      end
  end.

Definition is_blank (row : list string) : bool :=
  match row with
  | [] => true
  | _ => false
  end.

(** [csv.DictReader]: the first row names the fields; blank rows are
    skipped *)
Definition DictReader (table : list (list string)) : list (Dict string) :=
  match table with
  | [] => []
  | fieldnames :: rows =>
      map (fun row => rev (zip_row fieldnames row))
          (filter (fun row => negb (is_blank row)) rows)
  end.

(** The loop of [import_csv].  [committed] is what the database holds,
    [session] what the request sees: rows added and not yet committed are
    in [session] only.  A new category is committed at once
    ([db.session.commit()] inside the loop), which commits every pending
    row with it; a validation failure returns without committing, and the
    pending rows are dropped with the session; an exception rolls back. *)
Fixpoint import_rows (uid : Z) (committed session : Store)
  (rows : list (Dict string)) : Response * Store :=
  match rows with
  | [] => ((200, Msg "Import completed"), session)
  | row :: rest =>
      match validate_required_fields row
              ["category"; "amount"; "date"]%string with
      | Some msg =>
          ((400, Msg (String.append "Invalid row data: " msg)), committed)
      | None =>
          match get row "category", get row "amount", get row "date" with
          | Some name, Some amount_str, Some date_str =>
              match validate_date date_str with
              | None =>
                  ((400, Msg (String.append "Invalid date in row: " date_str)),
                   committed)
              | Some date_obj =>
                  let '(cat_id, committed', session') :=
                    match category_by_name session uid name with
                    | Some cat => (c_id cat, committed, session)
                    | None =>
                        let type :=
                          match get row "type" with
                          | Some t => t
                          | None => "expense"%string
                          end in
                        let cat :=
                          mkCategory
                            (next_id (map c_id (categories_tbl session)))
                            uid name type in
                        let s1 := add_category session cat in
                        (c_id cat, s1, s1)
                    end in
                  match float_of_str amount_str with
                  | None => (internal_error, committed')
                  | Some amount =>
                      let exp :=
                        mkExpense
                          (next_id (map e_id (expenses_tbl session')))
                          uid cat_id amount date_obj
                          (get row "merchant") (get row "account")
                          (get row "project") (get row "tags")
                          (get row "note") in
                      import_rows uid committed' (add_expense session' exp)
                        rest
                  end
              end
          | _, _, _ => (internal_error, committed)
          end
      end
  end.

(** [import_csv] *)
Definition import_csv (s : Store) (uid : Z) (request : HttpRequest)
  : Response * Store :=
  match file request with
  | None => ((400, Msg "No file uploaded"), s)
  | Some (filename, table) =>
      if negb (endswith filename ".csv") then
        ((400, Msg "File must be CSV"), s)
      else import_rows uid s s (DictReader table)
  end.

Definition export_header : list string :=
  ["date"; "amount"; "category"; "merchant"; "account"; "project"; "tags";
   "note"]%string.

(** one [writer.writerow] of [export_csv] *)
Definition export_row (s : Store) (e : Expense) : list string :=
  [isoformat (e_date e);
   amount_str (e_amount e);
   match category_by_id s (e_category_id e) with
   | Some cat => c_name cat
   | None => "Unknown"%string
   end;
   or_empty (e_merchant e);
   or_empty (e_account e);
   or_empty (e_project e);
   or_empty (e_tags e);
   or_empty (e_note e)].

(** [export_csv]; the body is the table of cells that [csv.writer] writes *)
Definition export_csv (s : Store) (uid : Z) (request : HttpRequest)
  : Response * Store :=
  match date_bounds (args request) with
  | inl msg => ((400, Msg msg), s)
  | inr in_range =>
      ((200, CsvFile
               (export_header ::
                map (export_row s)
                  (filter (fun e => (e_user_id e =? uid) && in_range e)
                          (expenses_tbl s)))), s)
  end.

(** ** Periods and the default window *)

Inductive Period := Daily | Weekly | Monthly | Yearly.

(** [period in ['daily', 'weekly', 'monthly', 'yearly']] *)
Definition period_of (s : string) : option Period :=
  if String.eqb s "daily" then Some Daily
  else if String.eqb s "weekly" then Some Weekly
  else if String.eqb s "monthly" then Some Monthly
  else if String.eqb s "yearly" then Some Yearly
  else None.

Definition bind {A B} (o : option A) (k : A -> option B) : option B :=
  match o with
  | Some a => k a
  | None => None
  end.

Notation "x <- e ;; k" := (bind e (fun x => k))
  (at level 61, e at next level, right associativity).

(** the [else] branch of [summary]: the window a period has around
    [today]; [None] when the date arithmetic raises *)
Definition default_window (period : Period) (today : date)
  : option (date * date) :=
  match period with
  | Daily => Some (today, today)
  | Weekly =>
      start_date <- sub_days today (weekday today) ;;
      end_date <- add_days start_date 6 ;;
      Some (start_date, end_date)
  | Monthly =>
      start_date <- replace_day today 1 ;;
      next <- add_days start_date 31 ;;
      first <- replace_day next 1 ;;
      end_date <- sub_days first 1 ;;
      Some (start_date, end_date)
  | Yearly =>
      start_date <- replace_month_day today 1 1 ;;
      end_date <- replace_month_day today 12 31 ;;
      Some (start_date, end_date)
  end.

(** the first day of the month after [(y, m)] *)
Definition next_month_first (y m : Z) : date :=
  if m =? 12 then mkdate (y + 1) 1 1 else mkdate y (m + 1) 1.

(** ** Summary *)

(** [query(...).join(Category)]: each transaction with the category its
    [category_id] names, whoever owns that category *)
Definition join_category (s : Store) : list (Expense * Category) :=
  flat_map
    (fun e => map (pair e)
                (filter (fun c => c_id c =? e_category_id e)
                        (categories_tbl s)))
    (expenses_tbl s).

(** [db.func.sum(Expense.amount)] with [.scalar() or 0] *)
Definition sum_amount (rows : list (Expense * Category)) : Z :=
  fold_right (fun ec acc => e_amount (fst ec) + acc) 0 rows.

(** one of the two sums of [summary] *)
Definition total_of_type (s : Store) (uid : Z) (type : string)
  (start_date end_date : date) : Z :=
  sum_amount
    (filter (fun ec =>
               (e_user_id (fst ec) =? uid)
               && String.eqb (c_type (snd ec)) type
               && date_leb start_date (e_date (fst ec))
               && date_leb (e_date (fst ec)) end_date)
            (join_category s)).

(** the answer of [summary] once the window is known *)
Definition summary_answer (s : Store) (uid : Z) (period : string)
  (start_date end_date : date) : Response * Store :=
  let total_income := total_of_type s uid "income" start_date end_date in
  let total_expense := total_of_type s uid "expense" start_date end_date in
  let balance := total_income - total_expense in
  ((200, SummaryBody
           (mkSummary total_income total_expense balance period
              (isoformat start_date) (isoformat end_date) "THB")), s).

(** [summary]; [today] is [datetime.now(tz).date()] *)
Definition summary (s : Store) (uid : Z) (request : HttpRequest)
  (today : date) : Response * Store :=
  let period :=
    match get (args request) "period" with
    | Some p => p
    | None => "weekly"%string
    end in
  let from_date := get (args request) "from" in
  let to_date := get (args request) "to" in
  match period_of period with
  | None => ((400, Msg "Invalid period parameter"), s)
  | Some p =>
      if truthy from_date && truthy to_date then
        match bind from_date validate_date, bind to_date validate_date with
        | Some start_date, Some end_date =>
            if negb (date_leb start_date end_date) then
              ((400, Msg "Start date must be before end date"), s)
            else summary_answer s uid period start_date end_date
        | _, _ => ((400, Msg "Invalid date format"), s)
        end
      else
        match default_window p today with
        | Some (start_date, end_date) =>
            summary_answer s uid period start_date end_date
        | None => (internal_error, s)
        end
  end.

(** ** Analysis *)

Inductive GroupBy := ByCategory | ByMerchant | ByAccount | ByProject.

(** [group_by in ['category_id', 'merchant', 'account', 'project']] *)
Definition group_by_of (s : string) : option GroupBy :=
  if String.eqb s "category_id" then Some ByCategory
  else if String.eqb s "merchant" then Some ByMerchant
  else if String.eqb s "account" then Some ByAccount
  else if String.eqb s "project" then Some ByProject
  else None.

Definition text_group (o : option string) : GroupVal :=
  match o with
  | Some t => GStr t
  | None => GNull
  end.

(** [getattr(Expense, group_by)] *)
Definition group_value (g : GroupBy) (e : Expense) : GroupVal :=
  match g with
  | ByCategory => GInt (e_category_id e)
  | ByMerchant => text_group (e_merchant e)
  | ByAccount => text_group (e_account e)
  | ByProject => text_group (e_project e)
  end.

Definition group_eqb (a b : GroupVal) : bool :=
  match a, b with
  | GInt x, GInt y => x =? y
  | GStr x, GStr y => String.eqb x y
  | GNull, GNull => true
  | _, _ => false
  end.

(** the 0-based day of the year *)
Definition yday0 (d : date) : Z := days_before_month (year d) (month d) + day d - 1.

(** SQLite's [strftime('%W', d)], as a number: the week of the year, 00 to
    53, where week 01 starts on the first Monday of the year.  SQLite
    computes it as [(nDay + 7 - wd) / 7], [nDay] the 0-based day of the year
    and [wd] the days since Monday. *)
Definition strftime_W (d : date) : Z := (yday0 d + 7 - weekday d) / 7.

(** the period columns of a grouped row *)
Inductive Bucket :=
| BDaily (d : date)
| BMonthly (y m : Z)
| BWeekly (y w : Z)
| BYearly (y : Z).

(** the [GROUP BY] expressions of each period *)
Definition bucket_of (p : Period) (d : date) : Bucket :=
  match p with
  | Daily => BDaily d
  | Monthly => BMonthly (year d) (month d)
  | Weekly => BWeekly (year d) (strftime_W d)
  | Yearly => BYearly (year d)
  end.

Definition bucket_eqb (a b : Bucket) : bool :=
  match a, b with
  | BDaily x, BDaily y => date_eqb x y
  | BMonthly y1 m1, BMonthly y2 m2 => (y1 =? y2) && (m1 =? m2)
  | BWeekly y1 w1, BWeekly y2 w2 => (y1 =? y2) && (w1 =? w2)
  | BYearly y1, BYearly y2 => y1 =? y2
  | _, _ => false
  end.

(** a row of the grouped query: period columns, group, total *)
Definition Row := (Bucket * GroupVal * Z)%type.

(** [GROUP BY] with [sum]: add the amount to the row of its group, or open
    a new row *)
Fixpoint accumulate (b : Bucket) (g : GroupVal) (amount : Z) (rows : list Row)
  : list Row :=
  match rows with
  | [] => [(b, g, amount)]
  | (b', g', t) :: r =>
      if bucket_eqb b b' && group_eqb g g' then (b', g', t + amount) :: r
      else (b', g', t) :: accumulate b g amount r
  end.

(** the grouped query of [analysis], its rows in the order in which the
    groups first occur in the table (SQL leaves the order of the rows of a
    query without [ORDER BY] open) *)
Definition group_rows (p : Period) (g : GroupBy) (es : list Expense)
  : list Row :=
  fold_left (fun rows e =>
               accumulate (bucket_of p (e_date e)) (group_value g e)
                          (e_amount e) rows)
            es [].

(** the [result_dict] of a row *)
Definition result_dict (row : Row) : ResultDict :=
  match row with
  | (BDaily d, g, t) => mkResult g t (Some (isoformat d)) None None None
  | (BMonthly y m, g, t) => mkResult g t None (Some y) (Some m) None
  | (BWeekly y w, g, t) => mkResult g t None (Some y) None (Some w)
  | (BYearly y, g, t) => mkResult g t None (Some y) None None
  end.

(** the key of [response.sort]:
    [(x.get('year', 0), x.get('month', 0), x.get('week', 0), x.get('date', ''))] *)
Definition sort_key (x : ResultDict) : Z * Z * Z * string :=
  (match rd_year x with Some y => y | None => 0 end,
   match rd_month x with Some m => m | None => 0 end,
   match rd_week x with Some w => w | None => 0 end,
   match rd_date x with Some d => d | None => EmptyString end).

(** the order of Python tuples on these keys *)
Definition key_leb (a b : Z * Z * Z * string) : bool :=
  let '(y1, m1, w1, d1) := a in
  let '(y2, m2, w2, d2) := b in
  if y1 <? y2 then true else if y2 <? y1 then false
  else if m1 <? m2 then true else if m2 <? m1 then false
  else if w1 <? w2 then true else if w2 <? w1 then false
  else String.leb d1 d2.

(** lines 593 to 616: the response built from the rows the query
    returned, sorted (stably, as [list.sort] is) by the period key *)
Definition analysis_response (results : list Row) : list ResultDict :=
  sort_by (fun a b => key_leb (sort_key a) (sort_key b))
          (map result_dict results).

(** the [from] and [to] of [analysis]: a bound is used when it is given and
    not empty, and must parse then *)
Definition analysis_bounds (from_date to_date : option string)
  : string + (Expense -> bool) :=
  match (if truthy from_date then
           match bind from_date validate_date with
           | Some df => inr (fun e : Expense => date_leb df (e_date e))
           | None => inl "Invalid from date format"%string
           end
         else inr (fun _ => true)) with
  | inl msg => inl msg
  | inr after =>
      if truthy to_date then
        match bind to_date validate_date with
        | Some dt => inr (fun e => after e && date_leb (e_date e) dt)
        | None => inl "Invalid to date format"%string
        end
      else inr after
  end.

(** [analysis] *)
Definition analysis (s : Store) (uid : Z) (request : HttpRequest)
  : Response * Store :=
  let a := args request in
  let group_by :=
    match get a "group_by" with Some g => g | None => "category_id"%string end in
  let period :=
    match get a "period" with Some p => p | None => "monthly"%string end in
  let only_expense :=
    match get a "only_expense" with
    | Some v => String.eqb v "1"
    | None => false
    end in
  match group_by_of group_by with
  | None => ((400, Msg "Invalid group_by parameter"), s)
  | Some g =>
      match period_of period with
      | None => ((400, Msg "Invalid period parameter"), s)
      | Some p =>
          match analysis_bounds (get a "from") (get a "to") with
          | inl msg => ((400, Msg msg), s)
          | inr in_range =>
              let selected :=
                filter (fun ec =>
                          (e_user_id (fst ec) =? uid)
                          && (negb only_expense
                              || String.eqb (c_type (snd ec)) "expense")
                          && in_range (fst ec))
                       (join_category s) in
              ((200, AnalysisBody
                       (analysis_response
                          (group_rows p g (map fst selected)))), s)
          end
      end
  end.

(** the query string of a [summary] or [analysis] request: each argument
    is present when it is given *)
Definition query_args (items : list (string * option string)) : Dict string :=
  flat_map (fun kv => match snd kv with
                      | Some v => [(fst kv, Some v)]
                      | None => []
                      end) items.

Definition summary_request (period from_date to_date : option string)
  : HttpRequest :=
  mkRequest GET []
    (query_args [("period", period); ("from", from_date); ("to", to_date)]%string)
    None.

(** the number of Mondays among the days of the year of [d], from January 1
    up to and including [d]: the week number that SQLite documents for
    [%W] (week 01 starts on the first Monday) *)
Definition mondays_upto (d : date) : Z :=
  Z.of_nat
    (List.length
       (filter (fun k => (days_before_year (year d) + 1 + Z.of_nat k + 6) mod 7 =? 0)
               (seq 0 (Z.to_nat (yday0 d + 1))))).

(** ** Vocabulary of the statements *)

(** what the database guarantees of the tables: primary keys are unique,
    and a stored date is a date *)
Record wf_store (s : Store) : Prop := mk_wf {
  wf_category_ids : NoDup (map c_id (categories_tbl s));
  wf_expense_ids : NoDup (map e_id (expenses_tbl s));
  wf_dates : Forall (fun e => valid_date (e_date e)) (expenses_tbl s)
}.


(** the caller's categories of a given name *)
Definition named (uid : Z) (name : string) (c : Category) : bool :=
  (c_user_id c =? uid) && String.eqb (c_name c) name.





(** a row that [import_csv] accepts: the required cells are there, the
    date parses and the amount parses *)
Definition row_valid (row : Dict string) : bool :=
  match get row "category", get row "amount", get row "date" with
  | Some _, Some a, Some d =>
      match validate_date d, float_of_str a with
      | Some _, Some _ => true
      | _, _ => false
      end
  | _, _, _ => false
  end.

(** the transaction that a row became, in the store after the import *)
Definition imported_as (s' : Store) (uid : Z) (row : Dict string)
  (e : Expense) : Prop :=
  exists name a d cat,
    get row "category" = Some name /\ get row "amount" = Some a
    /\ get row "date" = Some d
    /\ validate_date d = Some (e_date e) /\ float_of_str a = Some (e_amount e)
    /\ category_by_name s' uid name = Some cat
    /\ e_category_id e = c_id cat /\ e_user_id e = uid
    /\ e_merchant e = get row "merchant" /\ e_account e = get row "account"
    /\ e_project e = get row "project" /\ e_tags e = get row "tags"
    /\ e_note e = get row "note".





(** ** Requests used in the examples *)

Definition get_request (a : Dict string) : HttpRequest :=
  mkRequest GET [] a None.

Definition post_request (data : Dict JVal) : HttpRequest :=
  mkRequest POST data [] None.

Definition patch_request (data : Dict JVal) : HttpRequest :=
  mkRequest PATCH data [] None.

Definition delete_request : HttpRequest := mkRequest DELETE [] [] None.

Definition upload (filename : string) (table : list (list string))
  : HttpRequest :=
  mkRequest POST [] [] (Some (filename, table)).

(** the table that [export_csv] writes for a tenant, all dates *)
Definition exported_table (s : Store) (uid : Z) : list (list string) :=
  match fst (export_csv s uid (get_request [])) with
  | (_, CsvFile table) => table
  | _ => []
  end.

(** run a sequence of calls, keeping the store *)
Definition then_ (s : Store) (call : Store -> Response * Store) : Store :=
  snd (call s).

Definition new_category (name type : string) : HttpRequest :=
  post_request [("name", Some (JStr name)); ("type", Some (JStr type))]%string.

Definition new_expense (category_id amount : Z) (date_str : string)
  : HttpRequest :=
  post_request [("category_id", Some (JInt category_id));
                ("amount", Some (JInt amount));
                ("date", Some (JStr date_str))]%string.

(** ** Example ledgers, each built by calls of the service *)

(** tenant 1 with the categories Food (expense) and Salary (income) *)
Definition food_salary : Store :=
  then_ (then_ empty_store
           (fun s => categories s 1 (new_category "Food" "expense")))
        (fun s => categories s 1 (new_category "Salary" "income")).

(** the scenario of March 2024: 100 and 50 of Food, 2000 of Salary *)
Definition march_2024 : Store :=
  then_ (then_ (then_ food_salary
                  (fun s => expenses s 1 (new_expense 1 100 "2024-03-01")))
               (fun s => expenses s 1 (new_expense 1 50 "2024-03-15")))
        (fun s => expenses s 1 (new_expense 2 2000 "2024-03-20")).



(** the order of [response.sort] *)
Definition key_order (a b : ResultDict) : Prop :=
  key_leb (sort_key a) (sort_key b) = true.



(** a row that names the category [name] *)
Definition names (name : string) (row : Dict string) : bool :=
  match get row "category" with
  | Some n => String.eqb n name
  | None => false
  end.


(** one transaction on New Year's Eve of 2018, a Monday *)
Definition new_years_eve_2018 : Store :=
  then_ food_salary (fun s => expenses s 1 (new_expense 1 100 "2018-12-31")).

(** the batch of C1: two valid rows with new categories, then a row whose
    date does not parse *)
Definition bad_third_row : list (list string) :=
  [["category"; "amount"; "date"];
   ["Food"; "10"; "2024-03-01"];
   ["Rent"; "5"; "2024-03-02"];
   ["Food"; "7"; "not-a-date"]]%string.

(** the category that [import_csv] creates for a row that names a new one *)
Definition created_category (session : Store) (uid : Z) (row : Dict string)
  (name : string) : Category :=
  mkCategory (next_id (map c_id (categories_tbl session))) uid name
    (match get row "type" with
     | Some t => t
     | None => "expense"%string
     end).

(** the transaction that [import_csv] adds for a row *)
Definition created_expense (session : Store) (uid : Z) (row : Dict string)
  (cat_id amount : Z) (date_obj : date) : Expense :=
  mkExpense (next_id (map e_id (expenses_tbl session))) uid cat_id amount
    date_obj (get row "merchant") (get row "account") (get row "project")
    (get row "tags") (get row "note").


(** tenant 1 with one Food transaction that has no merchant, account,
    project, tags or note *)
Definition bare_expense : Store :=
  then_ food_salary (fun s => expenses s 1 (new_expense 1 100 "2024-03-01")).

(** two tenants: tenant 1 with Food, Salary and one Food transaction of
    100, tenant 2 with the income category Bonus (id 3) *)
Definition two_tenants : Store :=
  then_ (then_ food_salary
           (fun s => categories s 2 (new_category "Bonus" "income")))
        (fun s => expenses s 1 (new_expense 1 100 "2024-03-01")).

(** tenant 1 points its transaction at tenant 2's category *)
Definition crossed : Store :=
  then_ two_tenants
    (fun s => edit_expense s 1 1
                (patch_request [("category_id", Some (JInt 3))]%string)).

(** ... and tenant 2 then renames that category and makes it an expense
    category *)
Definition crossed_renamed : Store :=
  then_ crossed
    (fun s => edit_category s 2 3
                (patch_request [("name", Some (JStr "Secret"));
                                ("type", Some (JStr "expense"))]%string)).

Definition march_request : HttpRequest :=
  summary_request (Some "monthly"%string) (Some "2024-03-01"%string)
    (Some "2024-03-31"%string).

(** ** Default categories *)

(** the loop of [create_default_categories] over a list of defaults: a
    default is added unless the user has a category of that name; the
    lookup sees the defaults added before it *)
Definition seed_categories (defaults : list (string * string)) (s : Store)
  (user_id : Z) : Store :=
  fold_left
    (fun session cat =>
       match category_by_name session user_id (fst cat) with
       | Some _ => session
       | None =>
           add_category session
             (mkCategory (next_id (map c_id (categories_tbl session)))
                         user_id (fst cat) (snd cat))
       end)
    defaults s.

(** the defaults of [src/app.py] *)
Definition DEFAULT_CATEGORIES : list (string * string) :=
  [("ดอกรัก", "expense"); ("มะลิ", "expense"); ("ดาวเรือง", "expense");
   ("กุหลาบมอญ", "expense"); ("บายศรี", "expense"); ("จำปี", "expense");
   ("หมาก", "expense"); ("บุหรี่", "expense"); ("อ้อย", "expense");
   ("มัม ใหญ่", "expense"); ("มัน เล็ก", "expense");
   ("กุหลาบใหญ่", "expense"); ("กล้วย", "expense");
   ("แคสเปียร์", "expense"); ("คาเนชั่น", "expense"); ("บัว", "expense");
   ("ดาวกำ", "expense"); ("ไม้กำ", "expense"); ("ปีโป้", "expense");
   ("ดีโด้", "expense"); ("ตัวดูด", "expense"); ("เยลลี่", "expense");
   ("ผลไม้", "expense"); ("ทองรวม", "expense"); ("น้ำแดง", "expense");
   ("น้ำอบ", "expense"); ("อื่น", "expense"); ("ขายดอกไม้", "income");
   ("ขายสินค้า", "income"); ("เงินพิเศษ", "income");
   ("เงินเก็บ", "income")]%string.

(** [create_default_categories] *)
Definition create_default_categories (s : Store) (user_id : Z) : Store :=
  seed_categories DEFAULT_CATEGORIES s user_id.

(** ** The service of [src/backend/app.py]

    Its models, helpers and handlers are those of [src/app.py], except the
    defaults, [summary] and [analysis]. *)

Module Backend.

Definition DEFAULT_CATEGORIES : list (string * string) :=
  [("อาหาร", "expense"); ("เดินทาง", "expense"); ("ที่พัก", "expense");
   ("ลงทุน", "expense"); ("จิปาถะ", "expense"); ("อื่นๆ", "expense");
   ("ขายดอกไม้", "income"); ("เงินพิเศษ", "income")]%string.

Definition create_default_categories (s : Store) (user_id : Z) : Store :=
  seed_categories DEFAULT_CATEGORIES s user_id.

(** one of the two sums of its [summary]: no upper bound on the date *)
Definition total_since (s : Store) (uid : Z) (type : string)
  (month_start : date) : Z :=
  sum_amount
    (filter (fun ec =>
               (e_user_id (fst ec) =? uid)
               && String.eqb (c_type (snd ec)) type
               && date_leb month_start (e_date (fst ec)))
            (join_category s)).

Record Totals := mkTotals {
  b_total_expense : Z;
  b_total_income : Z;
  b_balance : Z
}.

(** [summary]: the totals since the first day of [today]'s month; [None]
    is the 500 of [except Exception] *)
Definition summary (s : Store) (uid : Z) (today : date) : option Totals :=
  month_start <- replace_day today 1 ;;
  let total_expense := total_since s uid "expense" month_start in
  let total_income := total_since s uid "income" month_start in
  Some (mkTotals total_expense total_income (total_income - total_expense)).

(** the grouped query of its [analysis]: one row per group *)
Fixpoint accumulate (g : GroupVal) (amount : Z) (rows : list (GroupVal * Z))
  : list (GroupVal * Z) :=
  match rows with
  | [] => [(g, amount)]
  | (g', t) :: r =>
      if group_eqb g g' then (g', t + amount) :: r
      else (g', t) :: accumulate g amount r
  end.

Definition group_rows (g : GroupBy) (es : list Expense)
  : list (GroupVal * Z) :=
  fold_left (fun rows e => accumulate (group_value g e) (e_amount e) rows)
            es [].

(** [analysis]: totals by group, without periods and without sorting; the
    body lists the pairs of group and total *)
Definition analysis (s : Store) (uid : Z) (request : HttpRequest)
  : Z * (string + list (GroupVal * Z)) :=
  let a := args request in
  let group_by :=
    match get a "group_by" with Some g => g | None => "category_id"%string end in
  let only_expense :=
    match get a "only_expense" with
    | Some v => String.eqb v "1"
    | None => false
    end in
  match group_by_of group_by with
  | None => (400, inl "Invalid group_by parameter"%string)
  | Some g =>
      match analysis_bounds (get a "from") (get a "to") with
      | inl msg => (400, inl msg)
      | inr in_range =>
          let selected :=
            filter (fun ec =>
                      (e_user_id (fst ec) =? uid)
                      && (negb only_expense
                          || String.eqb (c_type (snd ec)) "expense")
                      && in_range (fst ec))
                   (join_category s) in
          (200, inr (group_rows g (map fst selected)))
      end
  end.

End Backend.

(** ** The dashboard of [src/streamlit_app/app.py] *)

Module Dashboard.

Definition WEEKLY : string := "รายสัปดาห์".
Definition MONTHLY : string := "รายเดือน".

(** [validate_input]: the message for the first field that is absent or
    empty, or nothing *)
Fixpoint validate_input (data : Dict string) (required_fields : list string)
  : option string :=
  match required_fields with
  | [] => None
  | field :: rest =>
      if truthy (get data field) then validate_input data rest
      else Some (String.append "กรุณากรอก" field)
  end.

(** [year or today.year] *)
Definition year_or (y : option Z) (today : date) : Z :=
  match y with
  | Some v => if v =? 0 then year today else v
  | None => year today
  end.

(** [get_date_range], up to its last line: the two dates that it then
    formats with [strftime("%Y-%m-%d")]; [None] when the date arithmetic
    raises.  [today] is [date.today()]. *)
Definition get_date_range (period : string) (y m w : option Z) (today : date)
  : option (date * date) :=
  if String.eqb period WEEKLY then
    match y, w with
    | Some year, Some week =>
        first_day_of_year <- make_date year 1 1 ;;
        let days_to_monday := (7 - weekday first_day_of_year) mod 7 in
        start <- add_days first_day_of_year (days_to_monday + (week - 1) * 7) ;;
        end_ <- add_days start 6 ;;
        if year <? PyDate.year end_ then
          last <- make_date year 12 31 ;; Some (start, last)
        else Some (start, end_)
    | _, _ =>
        start <- sub_days today (weekday today) ;;
        end_ <- add_days start 6 ;;
        Some (start, end_)
    end
  else if String.eqb period MONTHLY then
    match y, m with
    | Some year, Some month =>
        start <- make_date year month 1 ;;
        next <- add_days start 31 ;;
        first <- replace_day next 1 ;;
        end_ <- sub_days first 1 ;;
        Some (start, end_)
    | _, _ =>
        start <- replace_day today 1 ;;
        next <- add_days start 31 ;;
        first <- replace_day next 1 ;;
        end_ <- sub_days first 1 ;;
        Some (start, end_)
    end
  else
    start <- make_date (year_or y today) 1 1 ;;
    end_ <- make_date (year_or y today) 12 31 ;;
    Some (start, end_).

End Dashboard.

(** ** Vocabulary of the further statements *)

(** [s'] is [s] with categories and transactions of [uid] added at the
    end of the tables, and nothing else *)
Definition only_adds (uid : Z) (s s' : Store) : Prop :=
  exists created new,
    s' = mkStore (categories_tbl s ++ created) (expenses_tbl s ++ new)
    /\ Forall (fun c => c_user_id c = uid) created
    /\ Forall (fun e => e_user_id e = uid) new.

(** the sum of the totals of an analysis response *)
Definition sum_totals (l : list ResultDict) : Z :=
  fold_right (fun x acc => rd_total x + acc) 0 l.

(** two rows of the grouped query have the same period columns and group *)
Definition same_group (r1 r2 : Row) : bool :=
  bucket_eqb (fst (fst r1)) (fst (fst r2)) && group_eqb (snd (fst r1)) (snd (fst r2)).

(** an [analysis] request with a date range *)
Definition analysis_range_request
  (group_by period from_date to_date only_expense : option string)
  : HttpRequest :=
  get_request (query_args [("group_by", group_by); ("period", period);
                           ("from", from_date); ("to", to_date);
                           ("only_expense", only_expense)]%string).

(** the last date of [datetime.date] *)
Definition date_max : date := mkdate 9999 12 31.

(** * Facts about the calendar arithmetic *)

Lemma range_all_spec f n : forall lo,
  range_all f lo n = true -> forall z, lo <= z < lo + Z.of_nat n -> f z = true.
Proof.
  induction n as [|k IH]; intros lo H z Hz; [lia|].
  simpl in H. apply andb_true_iff in H. destruct H as [H0 H1].
  destruct (Z.eq_dec z lo) as [->|Hne]; [exact H0|].
  apply (IH (lo + 1) H1). lia.
Qed.

(** evaluate the month tables and the tests on month numbers, and nothing else *)
Ltac month_tables :=
  cbv beta iota delta
    [DAYS_BEFORE_MONTH DAYS_IN_MONTH Z.ltb Z.eqb Z.leb Z.compare Pos.compare
     Pos.compare_cont Pos.eqb andb orb negb] in *.

Lemma divmod_unique x d q r :
  0 <= r < d -> x = d * q + r -> x / d = q /\ x mod d = r.
Proof.
  intros Hr Hx. split.
  - symmetry. apply (Z.div_unique x d q r); [left; exact Hr | exact Hx].
  - symmetry. apply (Z.mod_unique x d q r); [left; exact Hr | exact Hx].
Qed.

(** Every year is [400a + 100b + 4c + e + 1] with digits in range. *)
Lemma year_decomp y :
  1 <= y ->
  exists a b c e, 0 <= a /\ 0 <= b < 4 /\ 0 <= c < 25 /\ 0 <= e < 4
                  /\ y = 400 * a + 100 * b + 4 * c + e + 1.
Proof.
  intros Hy.
  exists ((y - 1) / 400), ((y - 1) mod 400 / 100),
         ((y - 1) mod 100 / 4), ((y - 1) mod 4).
  Z.div_mod_to_equations. lia.
Qed.

Lemma dby_decomp a b c e :
  0 <= a -> 0 <= b < 4 -> 0 <= c < 25 -> 0 <= e < 4 ->
  days_before_year (400 * a + 100 * b + 4 * c + e + 1)
  = DI400Y * a + DI100Y * b + DI4Y * c + 365 * e.
Proof.
  intros. unfold days_before_year, DI400Y, DI100Y, DI4Y.
  Z.div_mod_to_equations; lia.
Qed.

Lemma is_leap_decomp a b c e :
  0 <= a -> 0 <= b < 4 -> 0 <= c < 25 -> 0 <= e < 4 ->
  is_leap (400 * a + 100 * b + 4 * c + e + 1)
  = (e =? 3) && (negb (c =? 24) || (b =? 3)).
Proof.
  intros. unfold is_leap.
  assert (H4 : (400 * a + 100 * b + 4 * c + e + 1) mod 4 = (e + 1) mod 4).
  { replace (400 * a + 100 * b + 4 * c + e + 1)
      with ((e + 1) + (100 * a + 25 * b + c) * 4) by lia.
    apply Z.mod_add. lia. }
  assert (H100 : (400 * a + 100 * b + 4 * c + e + 1) mod 100
                 = (4 * c + e + 1) mod 100).
  { replace (400 * a + 100 * b + 4 * c + e + 1)
      with ((4 * c + e + 1) + (4 * a + b) * 100) by lia.
    apply Z.mod_add. lia. }
  assert (H400 : (400 * a + 100 * b + 4 * c + e + 1) mod 400
                 = (100 * b + 4 * c + e + 1) mod 400).
  { replace (400 * a + 100 * b + 4 * c + e + 1)
      with ((100 * b + 4 * c + e + 1) + a * 400) by lia.
    apply Z.mod_add. lia. }
  rewrite H4, H100, H400. clear H4 H100 H400.
  destruct (Z.eqb_spec e 3), (Z.eqb_spec c 24), (Z.eqb_spec b 3);
    cbn [andb orb negb];
    repeat match goal with
           | |- context [?x =? ?y] => destruct (Z.eqb_spec x y)
           end;
    cbn [andb orb negb]; try reflexivity;
    exfalso; Z.div_mod_to_equations; lia.
Qed.

Lemma month_day_leap_last y : month_day y true 365 = mkdate y 12 31.
Proof. reflexivity. Qed.

(** The year part of [_ord2ymd]: the ordinal of the [k]-th day (from 0) of
    year [y] is sent to year [y], and its month and day are [month_day]'s. *)
Lemma ord2ymd_in_year y k :
  1 <= y -> 0 <= k < year_len y ->
  ord2ymd (days_before_year y + k + 1) = month_day y (is_leap y) k.
Proof.
  intros Hy Hk. unfold year_len in Hk.
  destruct (year_decomp y Hy) as (a & b & c & e & Ha & Hb & Hc & He & ->).
  rewrite dby_decomp, is_leap_decomp in * by assumption.
  unfold ord2ymd. cbv zeta.
  replace (DI400Y * a + DI100Y * b + DI4Y * c + 365 * e + k + 1 - 1)
    with (DI400Y * a + DI100Y * b + DI4Y * c + 365 * e + k) by lia.
  destruct (Z.eq_dec k 365) as [->|Hk365].
  - (* the last day of a leap year *)
    destruct (Z.eqb_spec e 3) as [E3|]; cbn [andb] in Hk; [subst e|lia].
    destruct (Z.eqb_spec c 24) as [E24|Hc24]; [subst c|].
    + destruct (Z.eqb_spec b 3) as [Eb|]; cbn [negb orb] in Hk; [subst b|lia].
      destruct (divmod_unique (DI400Y * a + DI100Y * 3 + DI4Y * 24 + 365 * 3 + 365)
                  DI400Y a (4 * DI100Y)) as [-> ->];
        [unfold DI400Y, DI100Y; lia | unfold DI400Y, DI100Y, DI4Y; lia |].
      destruct (divmod_unique (4 * DI100Y) DI100Y 4 0) as [-> ->];
        [unfold DI100Y; lia | lia |].
      change (0 mod DI4Y / 365) with 0. change (0 / DI4Y) with 0.
      cbn [Z.eqb Pos.eqb orb andb negb].
      rewrite month_day_leap_last. f_equal. lia.
    + destruct (divmod_unique (DI400Y * a + DI100Y * b + DI4Y * c + 365 * 3 + 365)
                  DI400Y a (DI100Y * b + DI4Y * c + 1460)) as [-> ->];
        [unfold DI400Y, DI100Y, DI4Y; lia | lia |].
      destruct (divmod_unique (DI100Y * b + DI4Y * c + 1460)
                  DI100Y b (DI4Y * c + 1460)) as [-> ->];
        [unfold DI100Y, DI4Y; lia | lia |].
      destruct (divmod_unique (DI4Y * c + 1460) DI4Y c 1460) as [-> ->];
        [unfold DI4Y; lia | lia |].
      change (1460 / 365) with 4. change (1460 mod 365) with 0.
      cbn [Z.eqb Pos.eqb orb].
      destruct (Z.eqb_spec c 24); [lia|]. cbn [andb orb negb].
      rewrite month_day_leap_last. f_equal. lia.
  - assert (Hk' : 0 <= k < 365)
      by (destruct ((e =? 3) && (negb (c =? 24) || (b =? 3))); lia).
    destruct (divmod_unique (DI400Y * a + DI100Y * b + DI4Y * c + 365 * e + k)
                DI400Y a (DI100Y * b + DI4Y * c + 365 * e + k)) as [-> ->];
      [unfold DI400Y, DI100Y, DI4Y; lia | lia |].
    destruct (divmod_unique (DI100Y * b + DI4Y * c + 365 * e + k)
                DI100Y b (DI4Y * c + 365 * e + k)) as [-> ->];
      [unfold DI100Y, DI4Y; lia | lia |].
    destruct (divmod_unique (DI4Y * c + 365 * e + k) DI4Y c (365 * e + k))
      as [-> ->]; [unfold DI4Y; lia | lia |].
    destruct (divmod_unique (365 * e + k) 365 e k) as [-> ->]; [lia | lia |].
    destruct (Z.eqb_spec e 4); [lia|]. destruct (Z.eqb_spec b 4); [lia|].
    cbn [orb].
    replace (a * 400 + 1 + b * 100 + c * 4 + e)
      with (400 * a + 100 * b + 4 * c + e + 1) by lia.
    reflexivity.
Qed.

Lemma date_eqb_eq a b : date_eqb a b = true <-> a = b.
Proof.
  destruct a as [y m d], b as [y' m' d']. unfold date_eqb. cbn [year month day].
  rewrite !andb_true_iff, !Z.eqb_eq. split.
  - intros [[-> ->] ->]. reflexivity.
  - intros E. injection E as -> -> ->. auto.
Qed.

Lemma month_day_year y leap k : year (month_day y leap k) = y.
Proof. unfold month_day. cbv zeta. destruct (_ <? _); reflexivity. Qed.

Lemma month_day_any_year y leap k :
  month_day y leap k
  = mkdate y (month (month_day 0 leap k)) (day (month_day 0 leap k)).
Proof. unfold month_day. cbv zeta. destruct (_ <? _); reflexivity. Qed.

(** The month part of [_ord2ymd], settled by running it on every day of a
    common year and of a leap year. *)
Lemma month_day_spec y (leap : bool) k :
  0 <= k < 365 + (if leap then 1 else 0) ->
  let d := month_day y leap k in
  year d = y /\ 1 <= month d <= 12 /\
  1 <= day d <= DAYS_IN_MONTH (month d)
                + (if (month d =? 2) && leap then 1 else 0) /\
  DAYS_BEFORE_MONTH (month d) + (if (2 <? month d) && leap then 1 else 0)
  + day d = k + 1.
Proof.
  intros Hk. cbv zeta. rewrite month_day_any_year. cbn [year month day].
  set (chk := fun (l : bool) (k : Z) =>
    let d := month_day 0 l k in
    (1 <=? month d) && (month d <=? 12) && (1 <=? day d)
    && (day d <=? DAYS_IN_MONTH (month d)
                  + (if (month d =? 2) && l then 1 else 0))
    && (DAYS_BEFORE_MONTH (month d) + (if (2 <? month d) && l then 1 else 0)
        + day d =? k + 1)).
  assert (H : chk leap k = true).
  { destruct leap.
    - apply (range_all_spec (chk true) 366 0); [vm_compute; reflexivity | lia].
    - apply (range_all_spec (chk false) 365 0); [vm_compute; reflexivity | lia]. }
  unfold chk in H. cbv zeta in H.
  rewrite !andb_true_iff, !Z.leb_le, Z.eqb_eq in H. intuition.
Qed.

Lemma month_day_inv y (leap : bool) m d :
  1 <= m <= 12 ->
  1 <= d <= DAYS_IN_MONTH m + (if (m =? 2) && leap then 1 else 0) ->
  month_day y leap
    (DAYS_BEFORE_MONTH m + (if (2 <? m) && leap then 1 else 0) + d - 1)
  = mkdate y m d.
Proof.
  intros Hm Hd. rewrite month_day_any_year.
  set (chk := fun (l : bool) (m : Z) =>
    range_all (fun d =>
      implb (d <=? DAYS_IN_MONTH m + (if (m =? 2) && l then 1 else 0))
        (date_eqb
           (month_day 0 l
              (DAYS_BEFORE_MONTH m + (if (2 <? m) && l then 1 else 0) + d - 1))
           (mkdate 0 m d))) 1 31).
  assert (H : chk leap m = true).
  { destruct leap.
    - apply (range_all_spec (chk true) 12 1); [vm_compute; reflexivity | lia].
    - apply (range_all_spec (chk false) 12 1); [vm_compute; reflexivity | lia]. }
  unfold chk in H.
  assert (Hd31 : 1 <= d < 1 + Z.of_nat 31).
  { assert (DAYS_IN_MONTH m <= 31).
    { assert (Hc : m = 1 \/ m = 2 \/ m = 3 \/ m = 4 \/ m = 5 \/ m = 6 \/ m = 7 \/
                   m = 8 \/ m = 9 \/ m = 10 \/ m = 11 \/ m = 12) by lia.
      destruct Hc as [Hc|[Hc|[Hc|[Hc|[Hc|[Hc|[Hc|[Hc|[Hc|[Hc|[Hc|Hc]]]]]]]]]]];
        subst m; month_tables; lia. }
    destruct ((m =? 2) && leap) eqn:E; [|lia].
    apply andb_true_iff in E. destruct E as [E _]. apply Z.eqb_eq in E.
    subst m. month_tables. lia. }
  pose proof (range_all_spec _ _ _ H d Hd31) as Hx. cbv beta in Hx.
  assert (Hle : (d <=? DAYS_IN_MONTH m + (if (m =? 2) && leap then 1 else 0))
                = true) by (apply Z.leb_le; lia).
  rewrite Hle in Hx. cbn [implb] in Hx. apply date_eqb_eq in Hx.
  rewrite Hx. reflexivity.
Qed.

Lemma dby_succ y :
  1 <= y -> days_before_year (y + 1) = days_before_year y + year_len y.
Proof.
  intros Hy. unfold year_len.
  destruct (year_decomp y Hy) as (a & b & c & e & Ha & Hb & Hc & He & ->).
  rewrite is_leap_decomp by assumption.
  rewrite dby_decomp by assumption.
  unfold days_before_year, DI400Y, DI100Y, DI4Y.
  destruct (Z.eqb_spec e 3), (Z.eqb_spec c 24), (Z.eqb_spec b 3);
    cbn [andb orb negb]; Z.div_mod_to_equations; lia.
Qed.

Lemma dby_mono y y' :
  1 <= y <= y' -> days_before_year y <= days_before_year y'.
Proof.
  intros H. unfold days_before_year. Z.div_mod_to_equations. lia.
Qed.

Lemma year_len_pos y : 365 <= year_len y <= 366.
Proof. unfold year_len. destruct (is_leap y); lia. Qed.

Lemma days_in_month_eq y m :
  days_in_month y m
  = DAYS_IN_MONTH m + (if (m =? 2) && is_leap y then 1 else 0).
Proof.
  unfold days_in_month. destruct ((m =? 2) && is_leap y) eqn:E; [|lia].
  apply andb_true_iff in E. destruct E as [E _]. apply Z.eqb_eq in E.
  subst m. reflexivity.
Qed.

Lemma valid_date_iff d :
  valid_date d <->
  1 <= year d <= 9999 /\ 1 <= month d <= 12
  /\ 1 <= day d <= days_in_month (year d) (month d).
Proof.
  unfold valid_date, check_date_fields, MINYEAR, MAXYEAR.
  rewrite !andb_true_iff, !Z.leb_le. intuition.
Qed.

(** The 0-based day of the year of a valid date lies within its year. *)
Lemma yday_range y m d :
  1 <= m <= 12 -> 1 <= d <= days_in_month y m ->
  0 <= days_before_month y m + d - 1 < year_len y.
Proof.
  intros Hm Hd. rewrite days_in_month_eq in Hd.
  unfold days_before_month, year_len.
  assert (Hc : m = 1 \/ m = 2 \/ m = 3 \/ m = 4 \/ m = 5 \/ m = 6 \/ m = 7 \/
               m = 8 \/ m = 9 \/ m = 10 \/ m = 11 \/ m = 12) by lia.
  revert Hd. destruct (is_leap y); intros Hd;
    destruct Hc as [Hc|[Hc|[Hc|[Hc|[Hc|[Hc|[Hc|[Hc|[Hc|[Hc|[Hc|Hc]]]]]]]]]]];
    subst m; month_tables; lia.
Qed.

(** [fromordinal] undoes [toordinal] on every valid date. *)
Lemma fromordinal_toordinal d :
  valid_date d -> fromordinal (toordinal d) = d.
Proof.
  intros Hv. apply valid_date_iff in Hv. destruct Hv as (Hy & Hm & Hd).
  destruct d as [y m dd]. cbn [year month day] in *.
  unfold fromordinal, toordinal, ymd2ord. cbn [year month day].
  replace (days_before_year y + days_before_month y m + dd)
    with (days_before_year y + (days_before_month y m + dd - 1) + 1) by lia.
  rewrite ord2ymd_in_year; [| lia | apply yday_range; assumption].
  unfold days_before_month. apply month_day_inv; [assumption|].
  rewrite <- days_in_month_eq. assumption.
Qed.

Lemma dby_max : days_before_year 10000 = MAXORDINAL.
Proof. reflexivity. Qed.

Lemma toordinal_range d :
  valid_date d -> 1 <= toordinal d <= MAXORDINAL.
Proof.
  intros Hv. apply valid_date_iff in Hv. destruct Hv as (Hy & Hm & Hd).
  pose proof (yday_range _ _ _ Hm Hd) as Hk.
  unfold toordinal, ymd2ord.
  pose proof (dby_succ (year d) ltac:(lia)) as Hs.
  pose proof (dby_mono 1 (year d) ltac:(lia)) as H1.
  pose proof (dby_mono (year d + 1) 10000 ltac:(lia)) as H2.
  rewrite dby_max in H2. change (days_before_year 1) with 0 in H1. lia.
Qed.

(** Every ordinal in range is some day of some year. *)
Lemma ordinal_year n :
  1 <= n <= MAXORDINAL ->
  exists y k, 1 <= y <= 9999 /\ 0 <= k < year_len y
              /\ n = days_before_year y + k + 1.
Proof.
  intros Hn.
  assert (Hj : forall j : nat,
             0 <= n - 1 < days_before_year (1 + Z.of_nat j) ->
             exists y k, 1 <= y <= Z.of_nat j /\ 0 <= k < year_len y
                         /\ n = days_before_year y + k + 1).
  { induction j as [|j IH]; intros H.
    - change (days_before_year (1 + Z.of_nat 0)) with 0 in H. lia.
    - destruct (Z_lt_le_dec (n - 1) (days_before_year (1 + Z.of_nat j)))
        as [Hlt|Hge].
      + destruct (IH ltac:(lia)) as (y & k & Hy & Hk & E).
        exists y, k. repeat split; lia.
      + exists (1 + Z.of_nat j), (n - 1 - days_before_year (1 + Z.of_nat j)).
        pose proof (dby_succ (1 + Z.of_nat j) ltac:(lia)) as Hs.
        replace (1 + Z.of_nat (S j)) with (1 + Z.of_nat j + 1) in H by lia.
        repeat split; lia. }
  specialize (Hj (Z.to_nat 9999)). rewrite Z2Nat.id in Hj by lia.
  change (days_before_year (1 + 9999)) with MAXORDINAL in Hj.
  destruct (Hj ltac:(lia)) as (y & k & Hy & Hk & E).
  exists y, k. repeat split; lia.
Qed.

(** [toordinal] undoes [fromordinal] on every ordinal in range, and
    [fromordinal] yields a valid date there. *)
Lemma toordinal_fromordinal n :
  1 <= n <= MAXORDINAL ->
  valid_date (fromordinal n) /\ toordinal (fromordinal n) = n.
Proof.
  intros Hn. destruct (ordinal_year n Hn) as (y & k & Hy & Hk & ->).
  unfold fromordinal. rewrite ord2ymd_in_year by lia.
  pose proof (month_day_spec y (is_leap y) k Hk) as S. cbv zeta in S.
  destruct S as (Sy & Sm & Sd & Sk).
  split.
  - apply valid_date_iff. rewrite Sy, days_in_month_eq. lia.
  - unfold toordinal, ymd2ord, days_before_month. rewrite Sy. lia.
Qed.

Lemma weekday_range d : 0 <= weekday d < 7.
Proof. unfold weekday. apply Z.mod_pos_bound. lia. Qed.

(** [date + timedelta(days=k)] inside the range of the type *)
Lemma add_days_spec d k :
  1 <= toordinal d + k <= MAXORDINAL ->
  exists d', add_days d k = Some d' /\ valid_date d'
             /\ toordinal d' = toordinal d + k.
Proof.
  intros H. unfold add_days. cbv zeta.
  assert (E : (0 <? toordinal d + k) && (toordinal d + k <=? MAXORDINAL) = true).
  { apply andb_true_iff. rewrite Z.ltb_lt, Z.leb_le. lia. }
  rewrite E. eexists. split; [reflexivity|].
  apply toordinal_fromordinal. exact H.
Qed.

(** ... and outside of it: [OverflowError] *)
Lemma add_days_overflow d k :
  MAXORDINAL < toordinal d + k \/ toordinal d + k <= 0 -> add_days d k = None.
Proof.
  intros H. unfold add_days. cbv zeta.
  assert (E : (0 <? toordinal d + k) && (toordinal d + k <=? MAXORDINAL) = false).
  { apply andb_false_iff. rewrite Z.ltb_ge, Z.leb_gt. lia. }
  rewrite E. reflexivity.
Qed.

Lemma toordinal_inj a b :
  valid_date a -> valid_date b -> toordinal a = toordinal b -> a = b.
Proof.
  intros Ha Hb E. rewrite <- (fromordinal_toordinal a Ha),
    <- (fromordinal_toordinal b Hb), E. reflexivity.
Qed.

Lemma days_before_month_next y m :
  1 <= m < 12 ->
  days_before_month y (m + 1) = days_before_month y m + days_in_month y m.
Proof.
  intros Hm. rewrite days_in_month_eq. unfold days_before_month.
  assert (Hc : m = 1 \/ m = 2 \/ m = 3 \/ m = 4 \/ m = 5 \/ m = 6 \/ m = 7 \/
               m = 8 \/ m = 9 \/ m = 10 \/ m = 11) by lia.
  destruct (is_leap y);
    destruct Hc as [Hc|[Hc|[Hc|[Hc|[Hc|[Hc|[Hc|[Hc|[Hc|[Hc|Hc]]]]]]]]]];
    subst m; reflexivity.
Qed.

Lemma days_in_month_range y m : 1 <= m <= 12 -> 28 <= days_in_month y m <= 31.
Proof.
  intros Hm. rewrite days_in_month_eq.
  assert (Hc : m = 1 \/ m = 2 \/ m = 3 \/ m = 4 \/ m = 5 \/ m = 6 \/ m = 7 \/
               m = 8 \/ m = 9 \/ m = 10 \/ m = 11 \/ m = 12) by lia.
  destruct (is_leap y);
    destruct Hc as [Hc|[Hc|[Hc|[Hc|[Hc|[Hc|[Hc|[Hc|[Hc|[Hc|[Hc|Hc]]]]]]]]]]];
    subst m; month_tables; lia.
Qed.

Lemma days_before_month_mono y m m' :
  1 <= m -> m < m' -> m' <= 12 ->
  days_before_month y m + days_in_month y m <= days_before_month y m'.
Proof.
  intros H1 Hlt H12.
  assert (Hj : forall j : nat, m + 1 + Z.of_nat j <= 12 ->
             days_before_month y m + days_in_month y m
             <= days_before_month y (m + 1 + Z.of_nat j)).
  { induction j as [|j IH]; intros Hb.
    - rewrite Z.add_0_r, days_before_month_next by lia. lia.
    - replace (m + 1 + Z.of_nat (S j)) with (m + 1 + Z.of_nat j + 1) by lia.
      rewrite days_before_month_next by lia.
      pose proof (days_in_month_range y (m + 1 + Z.of_nat j) ltac:(lia)).
      specialize (IH ltac:(lia)). lia. }
  specialize (Hj (Z.to_nat (m' - m - 1))).
  replace (m + 1 + Z.of_nat (Z.to_nat (m' - m - 1))) with m' in Hj by lia.
  apply Hj. lia.
Qed.

(** The order of dates, [(year, month, day)] compared as a tuple, is the
    order of their ordinals. *)
Lemma date_cmp_toordinal a b :
  valid_date a -> valid_date b ->
  date_cmp a b = (toordinal a ?= toordinal b).
Proof.
  intros Ha Hb.
  apply valid_date_iff in Ha. apply valid_date_iff in Hb.
  destruct Ha as (Hya & Hma & Hda), Hb as (Hyb & Hmb & Hdb).
  pose proof (yday_range _ _ _ Hma Hda) as Ka.
  pose proof (yday_range _ _ _ Hmb Hdb) as Kb.
  unfold date_cmp, toordinal, ymd2ord.
  destruct (Z.compare_spec (year a) (year b)) as [Ey|Ly|Ly].
  - rewrite Ey in *.
    destruct (Z.compare_spec (month a) (month b)) as [Em|Lm|Lm].
    + rewrite Em. destruct (Z.compare_spec (day a) (day b)); symmetry;
        [apply Z.compare_eq_iff | apply Z.compare_lt_iff
        | apply Z.compare_gt_iff]; lia.
    + symmetry. apply Z.compare_lt_iff.
      pose proof (days_before_month_mono (year b) (month a) (month b)
                    ltac:(lia) Lm ltac:(lia)).
      lia.
    + symmetry. apply Z.compare_gt_iff.
      pose proof (days_before_month_mono (year b) (month b) (month a)
                    ltac:(lia) Lm ltac:(lia)).
      lia.
  - symmetry. apply Z.compare_lt_iff.
    pose proof (dby_succ (year a) ltac:(lia)).
    pose proof (dby_mono (year a + 1) (year b) ltac:(lia)). lia.
  - symmetry. apply Z.compare_gt_iff.
    pose proof (dby_succ (year b) ltac:(lia)).
    pose proof (dby_mono (year b + 1) (year a) ltac:(lia)). lia.
Qed.

Lemma date_leb_toordinal a b :
  valid_date a -> valid_date b ->
  date_leb a b = true <-> toordinal a <= toordinal b.
Proof.
  intros Ha Hb. unfold date_leb. rewrite date_cmp_toordinal by assumption.
  destruct (Z.compare_spec (toordinal a) (toordinal b)); split;
    intros; try reflexivity; try discriminate; lia.
Qed.

(** * Facts about the text forms *)


Lemma digit_of_char k : 0 <= k <= 9 -> digit_of (digit_char k) = Some k.
Proof.
  intros Hk.
  pose (chk := fun k => match digit_of (digit_char k) with
                        | Some j => j =? k
                        | None => false
                        end).
  assert (H : chk k = true)
    by (apply (range_all_spec chk 10 0); [vm_compute; reflexivity | lia]).
  unfold chk in H. destruct (digit_of (digit_char k)); [|discriminate].
  apply Z.eqb_eq in H. subst. reflexivity.
Qed.

Lemma digit_char_not_dash k : 0 <= k <= 9 -> digit_char k <> "-"%char.
Proof.
  intros Hk E.
  pose proof (digit_of_char k Hk) as H. rewrite E in H. discriminate.
Qed.

(** the month and day fields of [isoformat] read back *)
Lemma parse_month_pad2 m rest :
  1 <= m <= 12 -> parse_month (pad2 m (String "-" rest)) = Some (m, rest).
Proof.
  intros Hm.
  assert (Hc : m = 1 \/ m = 2 \/ m = 3 \/ m = 4 \/ m = 5 \/ m = 6 \/ m = 7 \/
               m = 8 \/ m = 9 \/ m = 10 \/ m = 11 \/ m = 12) by lia.
  destruct Hc as [Hc|[Hc|[Hc|[Hc|[Hc|[Hc|[Hc|[Hc|[Hc|[Hc|[Hc|Hc]]]]]]]]]]];
    subst m; reflexivity.
Qed.

Lemma parse_day_pad2 d :
  1 <= d <= 31 -> parse_day (pad2 d EmptyString) = Some d.
Proof.
  intros Hd.
  pose (chk := fun d => match parse_day (pad2 d EmptyString) with
                        | Some j => j =? d
                        | None => false
                        end).
  assert (H : chk d = true)
    by (apply (range_all_spec chk 31 1); [vm_compute; reflexivity | lia]).
  unfold chk in H. destruct (parse_day (pad2 d EmptyString)); [|discriminate].
  apply Z.eqb_eq in H. subst. reflexivity.
Qed.

(** [validate_date] reads back what [isoformat] writes. *)
Lemma validate_date_isoformat d :
  valid_date d -> validate_date (isoformat d) = Some d.
Proof.
  intros Hv. pose proof Hv as Hv'.
  apply valid_date_iff in Hv'. destruct Hv' as (Hy & Hm & Hd).
  pose proof (days_in_month_range (year d) (month d) Hm) as Hdim.
  unfold validate_date, isoformat, strptime_ymd.
  unfold pad2 at 1 2.
  rewrite !digit_of_char by (Z.div_mod_to_equations; lia).
  rewrite parse_month_pad2 by assumption.
  rewrite parse_day_pad2 by lia.
  replace (1000 * (year d / 100 / 10) + 100 * ((year d / 100) mod 10)
           + 10 * (year d mod 100 / 10) + (year d mod 100) mod 10)
    with (year d) by (Z.div_mod_to_equations; lia).
  unfold make_date. unfold valid_date in Hv. rewrite Hv.
  destruct d; reflexivity.
Qed.

(** * The period resolver *)

Lemma add_days_to d k d' :
  valid_date d' -> toordinal d' = toordinal d + k -> add_days d k = Some d'.
Proof.
  intros Hv E. pose proof (toordinal_range d' Hv) as Hr.
  unfold add_days. cbv zeta. rewrite <- E.
  assert (T : (0 <? toordinal d') && (toordinal d' <=? MAXORDINAL) = true).
  { apply andb_true_iff. rewrite Z.ltb_lt, Z.leb_le. lia. }
  rewrite T. f_equal. apply fromordinal_toordinal. exact Hv.
Qed.

Lemma make_date_valid y m d :
  valid_date (mkdate y m d) -> make_date y m d = Some (mkdate y m d).
Proof. unfold valid_date, make_date. cbn [year month day]. intros ->. reflexivity. Qed.

Lemma valid_first_of_month y m :
  1 <= y <= 9999 -> 1 <= m <= 12 -> valid_date (mkdate y m 1).
Proof.
  intros Hy Hm. apply valid_date_iff. cbn [year month day].
  pose proof (days_in_month_range y m Hm). lia.
Qed.

Lemma valid_last_of_month y m :
  1 <= y <= 9999 -> 1 <= m <= 12 -> valid_date (mkdate y m (days_in_month y m)).
Proof.
  intros Hy Hm. apply valid_date_iff. cbn [year month day].
  pose proof (days_in_month_range y m Hm). lia.
Qed.

Lemma next_month_first_ordinal y m :
  1 <= y -> 1 <= m <= 12 ->
  toordinal (next_month_first y m)
  = toordinal (mkdate y m 1) + days_in_month y m.
Proof.
  intros Hy Hm. unfold next_month_first, toordinal, ymd2ord.
  destruct (Z.eqb_spec m 12) as [->|Hne]; cbn [year month day].
  - rewrite dby_succ by lia. unfold year_len, days_before_month, days_in_month.
    destruct (is_leap y); month_tables; lia.
  - rewrite days_before_month_next by lia. lia.
Qed.

(** The monthly window: the month's first day and its last. *)
Lemma default_window_monthly today :
  valid_date today ->
  ~ (year today = 9999 /\ month today = 12) ->
  default_window Monthly today
  = Some (mkdate (year today) (month today) 1,
          mkdate (year today) (month today)
                 (days_in_month (year today) (month today))).
Proof.
  intros Hv Hlast. apply valid_date_iff in Hv. destruct Hv as (Hy & Hm & Hd).
  set (y := year today) in *. set (m := month today) in *.
  pose proof (days_in_month_range y m Hm) as Hdim.
  assert (Hnv : valid_date (next_month_first y m)).
  { unfold next_month_first. destruct (Z.eqb_spec m 12);
      apply valid_first_of_month; lia. }
  assert (Hny : 1 <= year (next_month_first y m) <= 9999
                /\ 1 <= month (next_month_first y m) <= 12
                /\ day (next_month_first y m) = 1).
  { unfold next_month_first. destruct (Z.eqb_spec m 12); cbn [year month day]; lia. }
  pose proof (next_month_first_ordinal y m ltac:(lia) Hm) as Hord.
  (* the date 31 days after the first of the month *)
  set (x := mkdate (year (next_month_first y m)) (month (next_month_first y m))
                   (32 - days_in_month y m)).
  assert (Hx : valid_date x).
  { apply valid_date_iff. unfold x. cbn [year month day].
    pose proof (days_in_month_range (year (next_month_first y m))
                  (month (next_month_first y m)) ltac:(lia)). lia. }
  assert (Hxo : toordinal x = toordinal (mkdate y m 1) + 31).
  { rewrite <- (Z.add_0_r (toordinal (mkdate y m 1))).
    replace (toordinal (mkdate y m 1) + 0 + 31)
      with (toordinal (next_month_first y m) + (31 - days_in_month y m))
      by lia.
    unfold x, toordinal, ymd2ord. cbn [year month day].
    destruct Hny as (_ & _ & ->). lia. }
  unfold default_window, replace_day. fold y m.
  rewrite (make_date_valid y m 1) by (apply valid_first_of_month; lia).
  cbn [bind]. rewrite (add_days_to _ 31 x Hx Hxo). cbn [bind].
  unfold x at 1 2. cbn [year month day].
  rewrite make_date_valid by (apply valid_first_of_month; lia).
  cbn [bind]. unfold sub_days.
  rewrite (add_days_to _ (-1) (mkdate y m (days_in_month y m))).
  - reflexivity.
  - apply valid_last_of_month; lia.
  - replace (mkdate (year (next_month_first y m))
               (month (next_month_first y m)) 1)
      with (next_month_first y m).
    + rewrite Hord. unfold toordinal, ymd2ord. cbn [year month day]. lia.
    + destruct Hny as (_ & _ & E). destruct (next_month_first y m).
      cbn [year month day] in *. subst. reflexivity.
Qed.

(** The weekly window: the Monday on or before [today], and the Sunday six
    days later. *)
Lemma default_window_weekly today :
  valid_date today ->
  toordinal today - weekday today + 6 <= MAXORDINAL ->
  exists s e,
    default_window Weekly today = Some (s, e)
    /\ valid_date s /\ valid_date e
    /\ weekday s = 0 /\ weekday e = 6
    /\ toordinal s = toordinal today - weekday today
    /\ toordinal e = toordinal s + 6.
Proof.
  intros Hv Hmax. pose proof (toordinal_range today Hv) as Hr.
  pose proof (weekday_range today) as Hw.
  assert (Hlo : 1 <= toordinal today - weekday today).
  { unfold weekday in *. Z.div_mod_to_equations. lia. }
  destruct (add_days_spec today (- weekday today) ltac:(lia))
    as (s & Es & Vs & Os).
  destruct (add_days_spec s 6 ltac:(lia)) as (e & Ee & Ve & Oe).
  exists s, e. unfold default_window, sub_days. rewrite Es. cbn [bind].
  rewrite Ee. cbn [bind].
  repeat split; try assumption; try lia.
  - unfold weekday in *. rewrite Os. Z.div_mod_to_equations. lia.
  - unfold weekday in *. rewrite Oe, Os. Z.div_mod_to_equations. lia.
Qed.

Lemma default_window_yearly today :
  valid_date today ->
  default_window Yearly today
  = Some (mkdate (year today) 1 1, mkdate (year today) 12 31).
Proof.
  intros Hv. apply valid_date_iff in Hv. destruct Hv as (Hy & _ & _).
  unfold default_window, replace_month_day.
  rewrite (make_date_valid (year today) 1 1)
    by (apply valid_first_of_month; lia).
  cbn [bind].
  rewrite (make_date_valid (year today) 12 31).
  - reflexivity.
  - apply valid_date_iff. cbn [year month day]. unfold days_in_month.
    cbn [Z.eqb Pos.eqb andb DAYS_IN_MONTH]. lia.
Qed.

(** C6, as the code has it.  With no explicit range, the window of a period
    around [today] is: daily, [today] to [today]; weekly, the Monday on or
    before [today] to the Sunday six days later; monthly, the first to the
    last day of [today]'s month, whatever its length; yearly, January 1 to
    December 31 of [today]'s year.  The weekly and monthly windows are
    computed by date arithmetic that leaves the range of [date] when
    [today] lies in the last week, respectively the last month, of year
    9999; they are as stated for every other [today]. *)
Theorem default_window_spec today :
  valid_date today ->
  default_window Daily today = Some (today, today)
  /\ (toordinal today - weekday today + 6 <= MAXORDINAL ->
      exists s e,
        default_window Weekly today = Some (s, e)
        /\ valid_date s /\ valid_date e
        /\ weekday s = 0 /\ weekday e = 6
        /\ toordinal s <= toordinal today <= toordinal e
        /\ toordinal e = toordinal s + 6)
  /\ (~ (year today = MAXYEAR /\ month today = 12) ->
      default_window Monthly today
      = Some (mkdate (year today) (month today) 1,
              mkdate (year today) (month today)
                     (days_in_month (year today) (month today))))
  /\ default_window Yearly today
     = Some (mkdate (year today) 1 1, mkdate (year today) 12 31).
Proof.
  intros Hv. split; [reflexivity|]. split; [|split].
  - intros Hmax.
    destruct (default_window_weekly today Hv Hmax)
      as (s & e & E & Vs & Ve & Ws & We & Os & Oe).
    pose proof (weekday_range today).
    exists s, e. repeat split; try assumption; lia.
  - intros Hlast. apply default_window_monthly; assumption.
  - apply default_window_yearly. exact Hv.
Qed.

Lemma default_window_spec_witness :
  valid_date (mkdate 2024 2 15)
  /\ default_window Monthly (mkdate 2024 2 15)
     = Some (mkdate 2024 2 1, mkdate 2024 2 29).
Proof.
  split; [reflexivity|].
  refine (proj1 (proj2 (proj2
            (default_window_spec (mkdate 2024 2 15) eq_refl))) _).
  intros [H _]. discriminate H.
Defined.

(** C6 as stated fails at the end of the range of [date]: on 9999-12-31, a
    Friday, the Sunday of the week and the first day of the next month do
    not exist, the arithmetic raises [OverflowError], and [summary] answers
    with an internal error. *)
Lemma default_window_overflow :
  valid_date (mkdate 9999 12 31)
  /\ default_window Weekly (mkdate 9999 12 31) = None
  /\ default_window Monthly (mkdate 9999 12 31) = None
  /\ fst (summary empty_store 1 (summary_request (Some "monthly"%string) None None)
            (mkdate 9999 12 31)) = internal_error.
Proof. vm_compute. repeat split. Qed.

(** C10.  When exactly one of [from] and [to] is supplied, [summary]
    answers as if none were: the bound is not even parsed, and the window
    is the default window of the period around [today]. *)
Theorem summary_single_bound_ignored s uid period today bound :
  summary s uid (summary_request period (Some bound) None) today
  = summary s uid (summary_request period None None) today
  /\ summary s uid (summary_request period None (Some bound)) today
     = summary s uid (summary_request period None None) today
  /\ summary s uid (summary_request period None None) today
     = let p := match period with Some p => p | None => "weekly"%string end in
       match period_of p with
       | None => ((400, Msg "Invalid period parameter"), s)
       | Some per =>
           match default_window per today with
           | Some (start_date, end_date) =>
               summary_answer s uid p start_date end_date
           | None => (internal_error, s)
           end
       end.
Proof.
  unfold summary, summary_request.
  destruct period as [p|]; cbn [query_args flat_map snd fst app args];
    unfold get; cbn [dict_get String.eqb Ascii.eqb Bool.eqb];
    cbn [truthy andb]; rewrite ?andb_false_r;
    repeat split; reflexivity.
Qed.

(** ** The weekly bucket *)

(** Counting Mondays: among the days [0..n] after a day of ordinal [j],
    the Mondays are [(n + 7 - wd) / 7], [wd] the weekday of the last. *)
Lemma count_mondays j (n : nat) :
  0 <= j ->
  Z.of_nat (List.length
              (filter (fun k => (j + Z.of_nat k + 6) mod 7 =? 0) (seq 0 (S n))))
  = (Z.of_nat n + 7 - (j + Z.of_nat n + 6) mod 7) / 7.
Proof.
  intros Hj. induction n as [|n IH].
  - cbn [seq filter]. rewrite Z.add_0_r. change (Z.of_nat 0) with 0.
    destruct (Z.eqb_spec ((j + 6) mod 7) 0) as [E|E]; cbn [List.length].
    + rewrite E. reflexivity.
    + change (Z.of_nat 0) with 0. Z.div_mod_to_equations. lia.
  - rewrite seq_S, filter_app, length_app, Nat2Z.inj_add, IH.
    cbn [filter Nat.add].
    destruct (Z.eqb_spec ((j + Z.of_nat (S n) + 6) mod 7) 0) as [E|E];
      cbn [List.length].
    + rewrite E. rewrite Nat2Z.inj_succ in *.
      change (Z.of_nat 1) with 1. Z.div_mod_to_equations. lia.
    + rewrite Nat2Z.inj_succ in *.
      change (Z.of_nat 0) with 0. Z.div_mod_to_equations. lia.
Qed.

Lemma strftime_W_mondays d :
  valid_date d -> strftime_W d = mondays_upto d.
Proof.
  intros Hv. apply valid_date_iff in Hv. destruct Hv as (Hy & Hm & Hd).
  pose proof (yday_range _ _ _ Hm Hd) as Hk. fold (yday0 d) in Hk.
  unfold mondays_upto, strftime_W, weekday, toordinal, ymd2ord.
  replace (Z.to_nat (yday0 d + 1)) with (S (Z.to_nat (yday0 d))) by lia.
  rewrite (count_mondays (days_before_year (year d) + 1)).
  - rewrite Z2Nat.id by lia. unfold yday0. do 3 f_equal. lia.
  - pose proof (dby_mono 1 (year d) ltac:(lia)).
    change (days_before_year 1) with 0 in *. lia.
Qed.

(** C5, as the code has it.  The weekly bucket of a date is its calendar
    year with SQLite's [%W] week: the number of Mondays of that calendar
    year up to the date, so weeks start on Monday, the days before the
    year's first Monday are week 0, and the week never belongs to a
    neighbouring year. *)
Theorem weekly_bucket_spec d :
  valid_date d ->
  bucket_of Weekly d = BWeekly (year d) (mondays_upto d)
  /\ 0 <= mondays_upto d <= 53.
Proof.
  intros Hv. split.
  - cbn [bucket_of]. rewrite strftime_W_mondays by exact Hv. reflexivity.
  - rewrite <- strftime_W_mondays by exact Hv.
    apply valid_date_iff in Hv. destruct Hv as (Hy & Hm & Hd).
    pose proof (yday_range _ _ _ Hm Hd) as Hk. fold (yday0 d) in Hk.
    pose proof (year_len_pos (year d)). pose proof (weekday_range d).
    unfold strftime_W. Z.div_mod_to_equations. lia.
Qed.

Lemma weekly_bucket_spec_witness :
  valid_date (mkdate 2018 12 31)
  /\ bucket_of Weekly (mkdate 2018 12 31)
     = BWeekly 2018 (mondays_upto (mkdate 2018 12 31)).
Proof.
  split; [reflexivity|].
  exact (proj1 (weekly_bucket_spec (mkdate 2018 12 31) eq_refl)).
Defined.

(** C5 as stated fails on its own example.  2018-12-31 is a Monday; its
    weekly bucket is week 53 of 2018, not week 1 of 2019, and that is what
    [analysis] reports for a transaction of that day. *)
Lemma weekly_bucket_not_iso :
  weekday (mkdate 2018 12 31) = 0
  /\ bucket_of Weekly (mkdate 2018 12 31) = BWeekly 2018 53
  /\ bucket_of Weekly (mkdate 2018 12 31) <> BWeekly 2019 1
  /\ fst (analysis new_years_eve_2018 1
            (get_request [("period", Some "weekly")]%string))
     = (200, AnalysisBody
               [mkResult (GInt 1) 100 None (Some 2018) None (Some 53)]).
Proof.
  split; [reflexivity|]. split; [reflexivity|].
  split; [vm_compute; discriminate | vm_compute; reflexivity].
Qed.

(** * Summary *)

Lemma find_none_filter {A} (p : A -> bool) l :
  find p l = None <-> filter p l = [].
Proof.
  induction l as [|x l IH]; cbn [find filter]; [tauto|].
  destruct (p x); [split; discriminate | exact IH].
Qed.





(** [summary] either answers with an error or with [summary_answer] over
    a resolved window. *)
Lemma summary_cases s uid request today :
  (exists code msg, code <> 200
                    /\ summary s uid request today = ((code, Msg msg), s))
  \/ (exists period a b,
        summary s uid request today = summary_answer s uid period a b).
Proof.
  unfold summary.
  destruct (period_of _); [|left; do 2 eexists; split; [|reflexivity]; lia].
  destruct (truthy _ && truthy _).
  - destruct (bind _ validate_date) as [a|];
      [|left; do 2 eexists; split; [|reflexivity]; lia].
    destruct (bind _ validate_date) as [b|];
      [|left; do 2 eexists; split; [|reflexivity]; lia].
    destruct (negb _); [left; do 2 eexists; split; [|reflexivity]; lia|].
    right. do 3 eexists. reflexivity.
  - destruct (default_window _ _) as [[a b]|].
    + right. do 3 eexists. reflexivity.
    + left. unfold internal_error. do 2 eexists. split; [|reflexivity]. lia.
Qed.




(** * Analysis: the order of the response *)

Section StableSort.
Context {A : Type} (leb : A -> A -> bool).
Hypothesis leb_total : forall a b, leb a b = true \/ leb b a = true.

Lemma insert_by_perm x l : Permutation (insert_by leb x l) (x :: l).
Proof.
  induction l as [|y l IH]; cbn [insert_by]; [reflexivity|].
  destruct (leb x y); [reflexivity|].
  rewrite IH. apply perm_swap.
Qed.

Lemma sort_by_perm l : Permutation (sort_by leb l) l.
Proof.
  induction l as [|x l IH]; cbn [sort_by fold_right]; [reflexivity|].
  fold (sort_by leb l). rewrite insert_by_perm, IH. reflexivity.
Qed.

Lemma insert_by_sorted x l :
  Sorted (fun a b => leb a b = true) l ->
  Sorted (fun a b => leb a b = true) (insert_by leb x l).
Proof.
  induction l as [|y l IH]; intros Hs; cbn [insert_by].
  - repeat constructor.
  - destruct (leb x y) eqn:E.
    + constructor; [exact Hs | constructor; exact E].
    + inversion Hs as [|? ? Hs' Hhd]; subst.
      constructor; [apply IH; exact Hs'|].
      destruct l as [|z l]; cbn [insert_by].
      * constructor. destruct (leb_total x y) as [H|H]; congruence.
      * destruct (leb x z).
        -- constructor. destruct (leb_total x y) as [H|H]; congruence.
        -- inversion Hhd; subst. constructor. assumption.
Qed.

Lemma sort_by_sorted l : Sorted (fun a b => leb a b = true) (sort_by leb l).
Proof.
  induction l as [|x l IH]; cbn [sort_by fold_right]; [constructor|].
  apply insert_by_sorted. exact IH.
Qed.


End StableSort.




(** ** What the key orders *)

Lemma digit_char_compare i j :
  0 <= i <= 9 -> 0 <= j <= 9 ->
  Ascii.compare (digit_char i) (digit_char j) = (i ?= j).
Proof.
  intros Hi Hj.
  pose (same := fun c1 c2 : comparison =>
                  match c1, c2 with
                  | Eq, Eq | Lt, Lt | Gt, Gt => true
                  | _, _ => false
                  end).
  pose (chk := fun i => range_all (fun j =>
                 same (Ascii.compare (digit_char i) (digit_char j)) (i ?= j))
                 0 10).
  assert (H : chk i = true)
    by (apply (range_all_spec chk 10 0); [vm_compute; reflexivity | lia]).
  unfold chk in H.
  pose proof (range_all_spec _ _ _ H j ltac:(lia)) as Hx. cbv beta in Hx.
  unfold same in Hx.
  destruct (Ascii.compare (digit_char i) (digit_char j)), (i ?= j);
    try reflexivity; discriminate Hx.
Qed.

Lemma pad2_compare a b ra rb :
  0 <= a < 100 -> 0 <= b < 100 ->
  String.compare (pad2 a ra) (pad2 b rb)
  = match a ?= b with
    | Eq => String.compare ra rb
    | c => c
    end.
Proof.
  intros Ha Hb. unfold pad2. cbn [String.compare].
  rewrite !digit_char_compare by (Z.div_mod_to_equations; lia).
  destruct (Z.compare_spec (a / 10) (b / 10)),
           (Z.compare_spec (a mod 10) (b mod 10)),
           (Z.compare_spec a b);
    try reflexivity; exfalso; Z.div_mod_to_equations; lia.
Qed.

(** ISO dates compare as texts the way the dates compare. *)
Lemma isoformat_compare a b :
  valid_date a -> valid_date b ->
  String.compare (isoformat a) (isoformat b) = date_cmp a b.
Proof.
  intros Ha Hb. apply valid_date_iff in Ha, Hb.
  destruct Ha as (Hya & Hma & Hda), Hb as (Hyb & Hmb & Hdb).
  pose proof (days_in_month_range (year a) _ Hma).
  pose proof (days_in_month_range (year b) _ Hmb).
  unfold isoformat, date_cmp.
  rewrite !pad2_compare by (Z.div_mod_to_equations; lia).
  cbn [String.compare]. change (Ascii.compare "-" "-") with Eq. cbv iota.
  rewrite pad2_compare by lia.
  cbn [String.compare]. change (Ascii.compare "-" "-") with Eq. cbv iota.
  rewrite pad2_compare by lia.
  cbn [String.compare].
  destruct (Z.compare_spec (year a / 100) (year b / 100)),
           (Z.compare_spec (year a mod 100) (year b mod 100)),
           (Z.compare_spec (year a) (year b));
    try reflexivity; try (exfalso; Z.div_mod_to_equations; lia).
  destruct (month a ?= month b); try reflexivity.
  destruct (day a ?= day b); reflexivity.
Qed.

Lemma isoformat_leb a b :
  valid_date a -> valid_date b ->
  String.leb (isoformat a) (isoformat b) = date_leb a b.
Proof.
  intros Ha Hb. unfold String.leb, date_leb.
  rewrite isoformat_compare by assumption. destruct (date_cmp a b); reflexivity.
Qed.

(** the key order on the records of each period: by date; by year then
    month; by year then week; by year *)
Lemma key_order_meaning g1 t1 g2 t2 :
  (forall d1 d2, valid_date d1 -> valid_date d2 ->
     key_order (result_dict (BDaily d1, g1, t1)) (result_dict (BDaily d2, g2, t2))
     <-> toordinal d1 <= toordinal d2)
  /\ (forall y1 m1 y2 m2,
        key_order (result_dict (BMonthly y1 m1, g1, t1))
                  (result_dict (BMonthly y2 m2, g2, t2))
        <-> y1 < y2 \/ (y1 = y2 /\ m1 <= m2))
  /\ (forall y1 w1 y2 w2,
        key_order (result_dict (BWeekly y1 w1, g1, t1))
                  (result_dict (BWeekly y2 w2, g2, t2))
        <-> y1 < y2 \/ (y1 = y2 /\ w1 <= w2))
  /\ (forall y1 y2,
        key_order (result_dict (BYearly y1, g1, t1))
                  (result_dict (BYearly y2, g2, t2))
        <-> y1 <= y2).
Proof.
  unfold key_order, sort_key, result_dict, key_leb.
  cbn [rd_year rd_month rd_week rd_date].
  split; [|split; [|split]].
  - intros d1 d2 V1 V2. cbn [Z.ltb Z.compare].
    rewrite isoformat_leb by assumption. apply date_leb_toordinal; assumption.
  - intros y1 m1 y2 m2.
    destruct (Z.ltb_spec y1 y2), (Z.ltb_spec y2 y1),
             (Z.ltb_spec m1 m2), (Z.ltb_spec m2 m1);
      cbn [Z.ltb Z.compare String.leb String.compare];
      split; intros; try reflexivity; try discriminate; lia.
  - intros y1 w1 y2 w2.
    destruct (Z.ltb_spec y1 y2), (Z.ltb_spec y2 y1),
             (Z.ltb_spec w1 w2), (Z.ltb_spec w2 w1);
      cbn [Z.ltb Z.compare String.leb String.compare];
      split; intros; try reflexivity; try discriminate; lia.
  - intros y1 y2.
    destruct (Z.ltb_spec y1 y2), (Z.ltb_spec y2 y1);
      cbn [Z.ltb Z.compare String.leb String.compare];
      split; intros; try reflexivity; try discriminate; lia.
Qed.




(** * Import and export *)

Lemma find_app_some {A} (p : A -> bool) l l' c :
  find p l = Some c -> find p (l ++ l') = Some c.
Proof.
  induction l as [|x l IH]; cbn [find app]; [discriminate|].
  destruct (p x); [tauto | exact IH].
Qed.

Lemma find_app_none {A} (p : A -> bool) l l' :
  find p l = None -> find p (l ++ l') = find p l'.
Proof.
  induction l as [|x l IH]; cbn [find app]; [reflexivity|].
  destruct (p x); [discriminate | exact IH].
Qed.

Lemma max_ids_bound ids : forall k, In k ids -> k <= fold_right Z.max 0 ids.
Proof.
  induction ids as [|i ids IH]; intros k Hin; [destruct Hin|].
  cbn [fold_right]. destruct Hin as [->|Hin]; [lia|].
  specialize (IH k Hin). lia.
Qed.

(** A new primary key is not in use. *)
Lemma next_id_fresh ids : ~ In (next_id ids) ids.
Proof.
  intros Hin. apply max_ids_bound in Hin. unfold next_id in Hin. lia.
Qed.

Lemma NoDup_snoc {A} (l : list A) x : NoDup l -> ~ In x l -> NoDup (l ++ [x]).
Proof.
  intros Hl Hx. apply NoDup_app; [exact Hl | repeat constructor; intros [] |].
  intros a Ha [<-|[]]. exact (Hx Ha).
Qed.


Lemma make_date_some y m d x : make_date y m d = Some x -> valid_date x.
Proof.
  unfold make_date. destruct (check_date_fields y m d) eqn:E; [|discriminate].
  intros [= <-]. exact E.
Qed.

(** [validate_date] returns dates only. *)
Lemma validate_date_valid t d : validate_date t = Some d -> valid_date d.
Proof.
  unfold validate_date, strptime_ymd.
  destruct t as [|y1 [|y2 [|y3 [|y4 [|c rest]]]]]; try discriminate.
  destruct (Ascii.eqb_spec c "-") as [->|Hc].
  - destruct (digit_of y1), (digit_of y2), (digit_of y3), (digit_of y4);
      try discriminate.
    destruct (parse_month rest) as [[m rest']|]; [|discriminate].
    destruct (parse_day rest'); [|discriminate].
    apply make_date_some.
  - intros H. exfalso. revert H.
    destruct c as [[] [] [] [] [] [] [] []]; try discriminate.
    exfalso. apply Hc. reflexivity.
Qed.

Lemma get_dict_get {V} (row : Dict V) k v :
  get row k = Some v -> dict_get k row = Some (Some v).
Proof.
  unfold get. destruct (dict_get k row) as [[x|]|]; intros [= ->]; reflexivity.
Qed.

Lemma row_valid_inv row :
  row_valid row = true ->
  exists name a d dt amt,
    get row "category" = Some name /\ get row "amount" = Some a
    /\ get row "date" = Some d /\ validate_date d = Some dt
    /\ float_of_str a = Some amt.
Proof.
  unfold row_valid.
  destruct (get row "category") as [name|]; [|discriminate].
  destruct (get row "amount") as [a|]; [|discriminate].
  destruct (get row "date") as [d|]; [|discriminate].
  destruct (validate_date d) as [dt|] eqn:Ed; [|discriminate].
  destruct (float_of_str a) as [amt|] eqn:Ea; [|discriminate].
  intros _. exists name, a, d, dt, amt. auto.
Qed.

(** One turn of the loop of [import_csv] on a row that it accepts. *)
Lemma import_rows_step uid committed session row rest name a d dt amt :
  get row "category" = Some name -> get row "amount" = Some a ->
  get row "date" = Some d ->
  validate_date d = Some dt -> float_of_str a = Some amt ->
  import_rows uid committed session (row :: rest)
  = match category_by_name session uid name with
    | Some cat =>
        import_rows uid committed
          (add_expense session (created_expense session uid row (c_id cat) amt dt))
          rest
    | None =>
        let cat := created_category session uid row name in
        let s1 := add_category session cat in
        import_rows uid s1
          (add_expense s1 (created_expense s1 uid row (c_id cat) amt dt)) rest
    end.
Proof.
  intros Hn Ha Hd Hdt Hamt. cbn [import_rows validate_required_fields].
  rewrite (get_dict_get _ _ _ Hn), (get_dict_get _ _ _ Ha),
    (get_dict_get _ _ _ Hd), Hn, Ha, Hd, Hdt.
  destruct (category_by_name session uid name); rewrite Hamt; reflexivity.
Qed.

Lemma imported_as_ext s1 s2 uid row e :
  categories_tbl s1 = categories_tbl s2 ->
  imported_as s1 uid row e -> imported_as s2 uid row e.
Proof.
  intros E (name & a & d & cat & H). exists name, a, d, cat.
  unfold category_by_name in *. rewrite <- E. exact H.
Qed.

Lemma named_created session uid row name name' :
  named uid name' (created_category session uid row name)
  = String.eqb name name'.
Proof. unfold named, created_category. cbn. rewrite Z.eqb_refl. reflexivity. Qed.

Lemma category_by_name_filter s uid name :
  category_by_name s uid name = None
  <-> filter (named uid name) (categories_tbl s) = [].
Proof. unfold category_by_name. apply (find_none_filter (named uid name)). Qed.

(** The import of a batch of rows that are all valid: it completes; the
    tables grow by the categories it created and by one transaction per
    row, in the order of the rows; every transaction references the
    category that its row's name resolves to in the final store; a name is
    created at most once, and only when the tenant had no category of that
    name; and the guarantees of the database are kept. *)
Lemma import_rows_ok uid rows : forall committed session,
  forallb row_valid rows = true ->
  exists created new,
    let s' := mkStore (categories_tbl session ++ created)
                      (expenses_tbl session ++ new) in
    import_rows uid committed session rows
    = ((200, Msg "Import completed"), s')
    /\ Forall2 (imported_as s' uid) rows new
    /\ (wf_store session -> wf_store s')
    /\ (forall name,
          filter (named uid name) (categories_tbl session) <> []
          \/ existsb (names name) rows = false ->
          filter (named uid name) created = [])
    /\ (forall name,
          filter (named uid name) (categories_tbl session) = [] ->
          existsb (names name) rows = true ->
          exists cat, filter (named uid name) created = [cat]).
Proof.
  induction rows as [|row rest IH]; intros committed session Hv.
  - exists [], []. cbn zeta. rewrite !app_nil_r. cbn [import_rows].
    split; [destruct session; reflexivity|]. split; [constructor|].
    split; [destruct session; tauto|]. split; [reflexivity|].
    intros name _ H. discriminate H.
  - cbn [forallb] in Hv. apply andb_true_iff in Hv. destruct Hv as [Hrow Hrest].
    destruct (row_valid_inv row Hrow)
      as (name0 & a & d & dt & amt & Hn & Ha & Hd & Hdt & Hamt).
    rewrite (import_rows_step _ _ _ _ _ _ _ _ _ _ Hn Ha Hd Hdt Hamt).
    destruct (category_by_name session uid name0) as [cat|] eqn:Hfind.
    + (* the category exists *)
      set (e := created_expense session uid row (c_id cat) amt dt).
      destruct (IH committed (add_expense session e) Hrest)
        as (created & new & Hrun & Himp & Hwf & Hkept & Hone).
      cbn zeta in *. unfold add_expense in *.
      cbn [categories_tbl expenses_tbl] in *.
      exists created, (e :: new).
      rewrite <- app_assoc in Hrun, Himp, Hwf. cbn [app] in Hrun, Himp, Hwf.
      split; [exact Hrun|]. split; [|split; [|split]].
      * constructor; [|exact Himp].
        exists name0, a, d, cat. unfold category_by_name in *.
        cbn [categories_tbl].
        rewrite (find_app_some _ _ created _ Hfind).
        repeat split; assumption.
      * intros W. apply Hwf. destruct W as [W1 W2 W3]. constructor.
        -- exact W1.
        -- cbn [expenses_tbl]. rewrite map_app. apply NoDup_snoc; [exact W2|].
           apply next_id_fresh.
        -- cbn [expenses_tbl]. apply Forall_app. split; [exact W3|].
           repeat constructor. exact (validate_date_valid _ _ Hdt).
      * intros name [H|H]; apply Hkept; [left; exact H|right].
        cbn [existsb] in H. apply orb_false_iff in H. tauto.
      * intros name Hnone Hex. apply Hone; [exact Hnone|].
        cbn [existsb] in Hex. apply orb_true_iff in Hex.
        destruct Hex as [Hex|Hex]; [|exact Hex].
        exfalso. unfold names in Hex. rewrite Hn in Hex.
        apply String.eqb_eq in Hex. subst name0.
        apply category_by_name_filter in Hnone. congruence.
    + (* the category is new: it is created and committed *)
      cbn zeta.
      set (cat := created_category session uid row name0).
      set (s1 := add_category session cat).
      set (e := created_expense s1 uid row (c_id cat) amt dt).
      destruct (IH s1 (add_expense s1 e) Hrest)
        as (created & new & Hrun & Himp & Hwf & Hkept & Hone).
      cbn zeta in *. unfold add_expense, s1, add_category in Hrun, Himp, Hwf, Hkept, Hone.
      cbn [categories_tbl expenses_tbl] in *.
      exists (cat :: created), (e :: new).
      rewrite <- !app_assoc in Hrun, Himp, Hwf. cbn [app] in Hrun, Himp, Hwf.
      split; [exact Hrun|]. split; [|split; [|split]].
      * constructor; [|exact Himp].
        exists name0, a, d, cat. unfold category_by_name in *.
        cbn [categories_tbl].
        rewrite (find_app_none _ _ _ Hfind). cbn [find].
        fold (named uid name0 cat). unfold cat at 1.
        rewrite named_created, String.eqb_refl.
        repeat split; assumption.
      * intros W. apply Hwf. destruct W as [W1 W2 W3]. constructor.
        -- cbn [categories_tbl]. rewrite map_app. apply NoDup_snoc; [exact W1|].
           apply next_id_fresh.
        -- cbn [expenses_tbl]. rewrite map_app. apply NoDup_snoc; [exact W2|].
           apply next_id_fresh.
        -- cbn [expenses_tbl]. apply Forall_app. split; [exact W3|].
           repeat constructor. exact (validate_date_valid _ _ Hdt).
      * intros name H. cbn [filter]. unfold cat at 1. rewrite named_created.
        destruct (String.eqb_spec name0 name) as [->|Hne].
        -- exfalso. destruct H as [H|H].
           ++ apply H. apply category_by_name_filter. exact Hfind.
           ++ cbn [existsb] in H. apply orb_false_iff in H. destruct H as [H _].
              unfold names in H. rewrite Hn, String.eqb_refl in H. discriminate H.
        -- apply Hkept. rewrite filter_app. cbn [filter]. unfold cat at 1.
           rewrite named_created.
           destruct (String.eqb_spec name0 name) as [|_]; [contradiction|].
           rewrite app_nil_r. destruct H as [H|H]; [left; exact H|right].
           cbn [existsb] in H. apply orb_false_iff in H. tauto.
      * intros name Hnone Hex. cbn [filter]. unfold cat at 1.
        rewrite named_created.
        destruct (String.eqb_spec name0 name) as [->|Hne].
        -- exists cat. f_equal. apply Hkept. left.
           rewrite filter_app. cbn [filter]. unfold cat at 1.
           rewrite named_created, String.eqb_refl.
           intros H. apply app_eq_nil in H. destruct H as [_ H]. discriminate H.
        -- apply Hone.
           ++ rewrite filter_app. cbn [filter]. unfold cat at 1.
              rewrite named_created.
              destruct (String.eqb_spec name0 name) as [|_]; [contradiction|].
              rewrite app_nil_r. exact Hnone.
           ++ cbn [existsb] in Hex. apply orb_true_iff in Hex.
              destruct Hex as [Hex|Hex]; [|exact Hex].
              unfold names in Hex. rewrite Hn in Hex.
              apply String.eqb_eq in Hex. contradiction.
Qed.





(** C1 at its failing input.  The batch has two valid rows with new
    categories and a third row whose date does not parse.  The import
    answers 400, and yet the store then holds both categories and the first
    transaction: each new category was committed inside the loop, and the
    second commit took the pending first transaction with it. *)
Theorem import_not_atomic :
  forallb row_valid (DictReader bad_third_row) = false
  /\ import_csv empty_store 1 (upload "ledger.csv" bad_third_row)
     = ((400, Msg "Invalid date in row: not-a-date"),
        mkStore
          [mkCategory 1 1 "Food" "expense"; mkCategory 2 1 "Rent" "expense"]
          [mkExpense 1 1 1 10 (mkdate 2024 3 1) None None None None None])
  /\ snd (import_csv empty_store 1 (upload "ledger.csv" bad_third_row))
     <> empty_store.
Proof.
  split; [vm_compute; reflexivity|]. split; [vm_compute; reflexivity|].
  vm_compute. discriminate.
Qed.

(** ** Export, then import *)







Lemma filter_all {A} (p : A -> bool) l :
  Forall (fun x => p x = true) l -> filter p l = l.
Proof.
  induction 1 as [|x l Hx _ IH]; [reflexivity|].
  cbn [filter]. rewrite Hx, IH. reflexivity.
Qed.






(** * Tenants *)

(** What does hold of the lookups by id: an id that is not the caller's is
    answered as an id that does not exist, and nothing changes. *)
Lemma edit_expense_not_mine s uid eid request :
  expense_of_user s eid uid = None ->
  edit_expense s uid eid request = (internal_error, s).
Proof. intros H. unfold edit_expense. cbv zeta. rewrite H. reflexivity. Qed.

Lemma edit_category_not_mine s uid cid request :
  category_of_user s cid uid = None ->
  edit_category s uid cid request = (internal_error, s).
Proof. intros H. unfold edit_category. cbv zeta. rewrite H. reflexivity. Qed.

(** What does hold of creation: a transaction is created only under a
    category of the caller. *)
Lemma expenses_post_same_tenant s uid data m id s' :
  expenses s uid (post_request data) = ((201, MsgId m id), s') ->
  exists e cat,
    s' = add_expense s e /\ e_user_id e = uid /\ e_id e = id
    /\ category_of_user s (e_category_id e) uid = Some cat.
Proof.
  unfold expenses, post_request. cbn [method json].
  destruct (validate_required_fields _ _); [discriminate|].
  destruct (get data "date") as [[z|date_str]|]; try discriminate.
  destruct (validate_date date_str) as [date_obj|]; [|discriminate].
  destruct (get data "category_id") as [[cid|t]|]; try discriminate.
  destruct (category_of_user s cid uid) as [cat|] eqn:Hcat; [|discriminate].
  destruct (match get data "amount" with Some v => float_of v | None => None end)
    as [amount|]; [|discriminate].
  intros E. injection E as _ Eid Es. subst s'.
  eexists. exists cat. split; [reflexivity|]. cbn [e_user_id e_id e_category_id].
  repeat split; assumption.
Qed.

(** C3 at its failing input.  Creating a transaction of tenant 1 under
    category 3, which is tenant 2's, is refused; patching [category_id] to 3
    on tenant 1's transaction is accepted, and the stored transaction then
    references tenant 2's category: [edit_expense] assigns [category_id]
    without the test that [expenses] makes. *)
Theorem edit_expense_foreign_category :
  category_by_id two_tenants 3 = Some (mkCategory 3 2 "Bonus" "income")
  /\ expenses two_tenants 1 (new_expense 3 100 "2024-03-01")
     = ((400, Msg "Invalid category"), two_tenants)
  /\ fst (edit_expense two_tenants 1 1
            (patch_request [("category_id", Some (JInt 3))]%string))
     = (200, Msg "Expense updated")
  /\ expenses_tbl crossed
     = [mkExpense 1 1 3 100 (mkdate 2024 3 1) None None None None None]
  /\ category_of_user crossed 3 1 = None.
Proof. vm_compute. repeat split. Qed.

(** C2 at its failing input.  After the patch of C3, what tenant 1 gets
    depends on tenant 2's data.  The export of tenant 1 shows the name of
    tenant 2's category, and the summary of tenant 1 counts the transaction
    by that category's kind; when tenant 2 renames the category and changes
    its kind, tenant 1's export and summary change, although no row of
    tenant 1 did. *)
Theorem tenant_results_depend_on_other_tenant :
  filter (fun c => c_user_id c =? 1) (categories_tbl crossed)
  = filter (fun c => c_user_id c =? 1) (categories_tbl crossed_renamed)
  /\ expenses_tbl crossed = expenses_tbl crossed_renamed
  /\ exported_table crossed 1
     = [export_header;
        ["2024-03-01"; "100"; "Bonus"; EmptyString; EmptyString; EmptyString;
         EmptyString; EmptyString]]%string
  /\ exported_table crossed_renamed 1
     = [export_header;
        ["2024-03-01"; "100"; "Secret"; EmptyString; EmptyString; EmptyString;
         EmptyString; EmptyString]]%string
  /\ fst (summary crossed 1 march_request (mkdate 2024 6 1))
     = (200, SummaryBody (mkSummary 100 0 100 "monthly" "2024-03-01"
                            "2024-03-31" "THB"))
  /\ fst (summary crossed_renamed 1 march_request (mkdate 2024 6 1))
     = (200, SummaryBody (mkSummary 0 100 (-100) "monthly" "2024-03-01"
                            "2024-03-31" "THB")).
Proof. vm_compute. repeat split. Qed.

(** * The helpers *)

(** X1.  Whatever [validate_date] returns is a date of the calendar: a
    year from 1 to 9999, a month from 1 to 12 and a day of that month, leap
    years included. *)
Theorem validate_date_returns_dates t d :
  validate_date t = Some d ->
  1 <= year d <= 9999 /\ 1 <= month d <= 12
  /\ 1 <= day d <= days_in_month (year d) (month d).
Proof.
  intros H. apply valid_date_iff. exact (validate_date_valid t d H).
Qed.

Lemma validate_date_returns_dates_witness :
  validate_date "2024-02-29" = Some (mkdate 2024 2 29)
  /\ 1 <= day (mkdate 2024 2 29) <= days_in_month 2024 2.
Proof.
  split; [reflexivity|].
  exact (proj2 (proj2 (validate_date_returns_dates "2024-02-29"
                         (mkdate 2024 2 29) eq_refl))).
Defined.

(** X2.  The ISO text of a date reads back as that date, so two different
    dates never have the same ISO text. *)
Theorem validate_date_reads_isoformat d d' :
  valid_date d ->
  validate_date (isoformat d) = Some d
  /\ (valid_date d' -> isoformat d = isoformat d' -> d = d').
Proof.
  intros Hv. split; [exact (validate_date_isoformat d Hv)|].
  intros Hv' E. pose proof (validate_date_isoformat d Hv) as H.
  rewrite E, (validate_date_isoformat d' Hv') in H. congruence.
Qed.

Lemma validate_date_reads_isoformat_witness :
  valid_date (mkdate 2018 12 31)
  /\ validate_date (isoformat (mkdate 2018 12 31)) = Some (mkdate 2018 12 31).
Proof.
  split; [reflexivity|].
  exact (proj1 (validate_date_reads_isoformat (mkdate 2018 12 31)
                  (mkdate 2018 12 31) eq_refl)).
Defined.

(** X3.  [validate_required_fields] passes exactly when every required
    field is present with a value that is not [None]; otherwise its message
    names the first required field, in the order of the list, that is
    absent or [None]. *)
Theorem validate_required_fields_spec {V} (data : Dict V) fields :
  (validate_required_fields data fields = None
   <-> Forall (fun f => exists v, dict_get f data = Some (Some v)) fields)
  /\ (forall msg,
        validate_required_fields data fields = Some msg ->
        exists before f after,
          fields = before ++ f :: after
          /\ Forall (fun f' => exists v, dict_get f' data = Some (Some v)) before
          /\ (dict_get f data = None \/ dict_get f data = Some None)
          /\ msg = String.append "Missing required field: " f).
Proof.
  induction fields as [|f fields [IH1 IH2]].
  - split; [split; [constructor | reflexivity] | discriminate].
  - cbn [validate_required_fields].
    destruct (dict_get f data) as [[v|]|] eqn:E.
    + split.
      * rewrite IH1. split; intros H.
        -- constructor; [exists v; exact E | exact H].
        -- inversion H; assumption.
      * intros msg H. destruct (IH2 msg H) as (b & f0 & a & -> & Hb & Hf & Hm).
        exists (f :: b), f0, a. split; [reflexivity|].
        split; [constructor; [exists v; exact E | exact Hb] | tauto].
    + split.
      * split; [discriminate|]. intros H. inversion H as [|? ? [v Hv] _]; subst.
        congruence.
      * intros msg [= <-]. exists [], f, fields. repeat split; auto.
    + split.
      * split; [discriminate|]. intros H. inversion H as [|? ? [v Hv] _]; subst.
        congruence.
      * intros msg [= <-]. exists [], f, fields. repeat split; auto.
Qed.

(** * Default categories *)

Lemma seed_step d ds s u :
  seed_categories (d :: ds) s u
  = seed_categories ds
      (match category_by_name s u (fst d) with
       | Some _ => s
       | None =>
           add_category s
             (mkCategory (next_id (map c_id (categories_tbl s))) u (fst d) (snd d))
       end) u.
Proof. reflexivity. Qed.

(** Seeding only appends categories of the user, and keeps what the
    database guarantees. *)
Lemma seed_appends ds : forall s u,
  exists created,
    seed_categories ds s u
    = mkStore (categories_tbl s ++ created) (expenses_tbl s)
    /\ Forall (fun c => c_user_id c = u /\ In (c_name c, c_type c) ds) created
    /\ (wf_store s -> wf_store (seed_categories ds s u)).
Proof.
  induction ds as [|d ds IH]; intros s u.
  - exists []. rewrite app_nil_r. destruct s. cbn. auto.
  - rewrite seed_step.
    destruct (category_by_name s u (fst d)) as [c|] eqn:F.
    + destruct (IH s u) as (created & E & Hc & Hwf).
      exists created. split; [exact E|]. split; [|exact Hwf].
      refine (Forall_impl _ _ Hc). intros a [H1 H2]. split; [exact H1|].
      right. exact H2.
    + set (cat := mkCategory (next_id (map c_id (categories_tbl s))) u (fst d) (snd d)).
      destruct (IH (add_category s cat) u) as (created & E & Hc & Hwf).
      exists (cat :: created). unfold add_category in E at 2 3.
      cbn [categories_tbl expenses_tbl] in E. rewrite <- app_assoc in E.
      split; [exact E|]. split.
      * constructor.
        -- split; [reflexivity|]. left. destruct d; reflexivity.
        -- refine (Forall_impl _ _ Hc). intros a [H1 H2]. split; [exact H1|].
           right. exact H2.
      * intros W. apply Hwf. destruct W as [W1 W2 W3]. constructor.
        -- unfold add_category. cbn [categories_tbl]. rewrite map_app.
           apply NoDup_snoc; [exact W1 | apply next_id_fresh].
        -- exact W2.
        -- exact W3.
Qed.

(** A name that resolves keeps resolving, to the same category. *)
Lemma seed_keeps_names ds s u u' name c :
  category_by_name s u' name = Some c ->
  category_by_name (seed_categories ds s u) u' name = Some c.
Proof.
  intros H. destruct (seed_appends ds s u) as (created & E & _).
  rewrite E. unfold category_by_name in *. cbn [categories_tbl].
  apply find_app_some. exact H.
Qed.

(** After seeding, every default resolves: to the category the user had,
    or to a new one of the default's kind. *)
Lemma seed_resolves ds : forall s u name kind,
  In (name, kind) ds ->
  exists c,
    category_by_name (seed_categories ds s u) u name = Some c
    /\ (category_by_name s u name = Some c
        \/ (category_by_name s u name = None
            /\ exists kind', In (name, kind') ds /\ c_type c = kind')).
Proof.
  induction ds as [|d ds IH]; intros s u name kind Hin; [destruct Hin|].
  rewrite seed_step.
  destruct (category_by_name s u name) as [c0|] eqn:F0.
  - exists c0. split; [|left; reflexivity].
    apply seed_keeps_names.
    destruct (category_by_name s u (fst d)); [exact F0|].
    unfold category_by_name in *. cbn [add_category categories_tbl].
    apply find_app_some. exact F0.
  - destruct (String.eqb_spec (fst d) name) as [Ed|Ed].
    + rewrite Ed, F0.
      set (cat := mkCategory (next_id (map c_id (categories_tbl s))) u name (snd d)).
      exists cat. split.
      * apply seed_keeps_names. unfold category_by_name in *.
        cbn [add_category categories_tbl]. rewrite (find_app_none _ _ _ F0).
        cbn [find cat c_user_id c_name]. rewrite Z.eqb_refl, String.eqb_refl.
        reflexivity.
      * right. split; [reflexivity|]. exists (snd d). split; [|reflexivity].
        left. destruct d. cbn in *. subst. reflexivity.
    + destruct Hin as [Hd|Hin]; [subst d; cbn in Ed; contradiction|].
      set (s1 := match category_by_name s u (fst d) with
                 | Some _ => s
                 | None => add_category s
                     (mkCategory (next_id (map c_id (categories_tbl s))) u
                        (fst d) (snd d))
                 end).
      assert (F1 : category_by_name s1 u name = None).
      { unfold s1. destruct (category_by_name s u (fst d)); [exact F0|].
        unfold category_by_name in *. cbn [add_category categories_tbl].
        rewrite (find_app_none _ _ _ F0). cbn [find c_user_id c_name].
        destruct (String.eqb_spec (fst d) name); [contradiction|].
        rewrite andb_false_r. reflexivity. }
      destruct (IH s1 u name kind Hin) as (c & Hc & Hor).
      exists c. split; [exact Hc|]. right. split; [reflexivity|].
      destruct Hor as [Hor|(_ & k' & Hk & Hty)]; [congruence|].
      exists k'. split; [right; exact Hk | exact Hty].
Qed.

(** When every default resolves already, seeding adds nothing. *)
Lemma seed_nothing ds : forall s u,
  (forall d, In d ds -> category_by_name s u (fst d) <> None) ->
  seed_categories ds s u = s.
Proof.
  induction ds as [|d ds IH]; intros s u H; [reflexivity|].
  rewrite seed_step.
  destruct (category_by_name s u (fst d)) eqn:F.
  - apply IH. intros d' Hd'. apply H. right. exact Hd'.
  - exfalso. apply (H d); [left; reflexivity | exact F].
Qed.

Lemma seed_idempotent ds s u :
  seed_categories ds (seed_categories ds s u) u = seed_categories ds s u.
Proof.
  apply seed_nothing. intros [name kind] Hin.
  destruct (seed_resolves ds s u name kind Hin) as (c & Hc & _).
  cbn [fst]. congruence.
Qed.


Lemma seed_fresh ds : forall s u,
  NoDup (map fst ds) ->
  (forall d, In d ds -> category_by_name s u (fst d) = None) ->
  exists created,
    seed_categories ds s u
    = mkStore (categories_tbl s ++ created) (expenses_tbl s)
    /\ map (fun c => (c_name c, c_type c)) created = ds
    /\ Forall (fun c => c_user_id c = u) created.
Proof.
  induction ds as [|d ds IH]; intros s u Hnd Hnone.
  - exists []. rewrite app_nil_r. destruct s. cbn. auto.
  - rewrite seed_step, (Hnone d (or_introl eq_refl)).
    cbn [map] in Hnd. inversion Hnd as [|? ? Hnotin Hnd']; subst.
    set (cat := mkCategory (next_id (map c_id (categories_tbl s))) u (fst d) (snd d)).
    destruct (IH (add_category s cat) u Hnd') as (created & E & Hmap & Hown).
    + intros d' Hd'. unfold category_by_name. cbn [add_category categories_tbl].
      rewrite (find_app_none _ _ _ (Hnone d' (or_intror Hd'))).
      cbn [find cat c_user_id c_name].
      destruct (String.eqb_spec (fst d) (fst d')) as [Ed|_];
        [|rewrite andb_false_r; reflexivity].
      exfalso. apply Hnotin. rewrite Ed. apply in_map. exact Hd'.
    + exists (cat :: created). unfold add_category in E at 2 3.
      cbn [categories_tbl expenses_tbl] in E. rewrite <- app_assoc in E.
      split; [exact E|]. split.
      * cbn [map cat c_name c_type]. rewrite Hmap. destruct d; reflexivity.
      * constructor; [reflexivity | exact Hown].
Qed.

Lemma default_names_distinct :
  NoDup (map fst DEFAULT_CATEGORIES) /\ NoDup (map fst Backend.DEFAULT_CATEGORIES).
Proof.
  assert (H : forall l : list string,
             (fix nodup (l : list string) : bool :=
                match l with
                | [] => true
                | x :: r => negb (existsb (String.eqb x) r) && nodup r
                end) l = true -> NoDup l).
  { induction l as [|x l IH]; intros E; [constructor|].
    apply andb_true_iff in E. destruct E as [E1 E2].
    constructor; [|apply IH; exact E2].
    intros Hin. apply negb_true_iff in E1.
    assert (existsb (String.eqb x) l = true)
      by (apply existsb_exists; exists x; split; [exact Hin | apply String.eqb_refl]).
    congruence. }
  split; apply H; vm_compute; reflexivity.
Qed.

Lemma unique_kind (ds : list (string * string)) name k k' :
  NoDup (map fst ds) -> In (name, k) ds -> In (name, k') ds -> k = k'.
Proof.
  induction ds as [|d ds IH]; intros Hnd H1 H2; [destruct H1|].
  cbn [map] in Hnd. inversion Hnd as [|? ? Hnotin Hnd']; subst.
  destruct H1 as [H1|H1], H2 as [H2|H2].
  - congruence.
  - exfalso. apply Hnotin. subst d. apply (in_map fst _ _ H2).
  - exfalso. apply Hnotin. subst d. apply (in_map fst _ _ H1).
  - exact (IH Hnd' H1 H2).
Qed.

(** X4.  Seeding the default categories twice is seeding them once, in
    both services: a default is never added a second time. *)
Theorem create_default_categories_idempotent s user_id :
  create_default_categories (create_default_categories s user_id) user_id
  = create_default_categories s user_id
  /\ Backend.create_default_categories
       (Backend.create_default_categories s user_id) user_id
     = Backend.create_default_categories s user_id.
Proof. split; apply seed_idempotent. Qed.

(** X5.  After the seeding every default name resolves for the user: to
    the category the user already had under that name, which is left as it
    is, or else to a new category of the default's kind. *)
Theorem create_default_categories_resolves s user_id name kind :
  In (name, kind) DEFAULT_CATEGORIES ->
  exists c,
    category_by_name (create_default_categories s user_id) user_id name = Some c
    /\ (category_by_name s user_id name = Some c
        \/ (category_by_name s user_id name = None /\ c_type c = kind)).
Proof.
  intros Hin.
  destruct (seed_resolves DEFAULT_CATEGORIES s user_id name kind Hin)
    as (c & Hc & Hor).
  exists c. split; [exact Hc|].
  destruct Hor as [Hor|(Hnone & k' & Hk & Hty)]; [left; exact Hor|].
  right. split; [exact Hnone|]. rewrite Hty.
  exact (unique_kind _ _ _ _ (proj1 default_names_distinct) Hk Hin).
Qed.

Lemma create_default_categories_resolves_witness :
  exists c,
    category_by_name (create_default_categories food_salary 7) 7 "เงินเก็บ"
    = Some c
    /\ (category_by_name food_salary 7 "เงินเก็บ" = Some c
        \/ (category_by_name food_salary 7 "เงินเก็บ" = None
            /\ c_type c = "income"%string)).
Proof.
  apply (create_default_categories_resolves food_salary 7 "เงินเก็บ" "income").
  vm_compute. repeat (try (left; reflexivity); right).
Defined.

(** X6.  The seeding changes no row and removes none: the categories are
    the old ones followed by new ones of that user, the transactions are
    untouched, the categories of every other user are the same list, and
    primary keys stay unique. *)
Theorem create_default_categories_appends s user_id :
  exists created,
    create_default_categories s user_id
    = mkStore (categories_tbl s ++ created) (expenses_tbl s)
    /\ Forall (fun c => c_user_id c = user_id) created
    /\ (forall other, other <> user_id ->
          filter (fun c => c_user_id c =? other)
                 (categories_tbl (create_default_categories s user_id))
          = filter (fun c => c_user_id c =? other) (categories_tbl s))
    /\ (wf_store s -> wf_store (create_default_categories s user_id)).
Proof.
  destruct (seed_appends DEFAULT_CATEGORIES s user_id) as (created & E & Hc & Hwf).
  exists created. split; [exact E|]. split; [|split; [|exact Hwf]].
  - refine (Forall_impl _ _ Hc). tauto.
  - intros other Hne. unfold create_default_categories. rewrite E.
    cbn [categories_tbl]. rewrite filter_app.
    replace (filter (fun c => c_user_id c =? other) created) with (@nil Category);
      [apply app_nil_r|].
    symmetry. clear E. induction Hc as [|c l [Hu _] _ IH]; [reflexivity|].
    cbn [filter]. rewrite Hu.
    destruct (Z.eqb_spec user_id other); [congruence | exact IH].
Qed.

(** X7.  For a user without categories the seeding creates exactly the
    defaults, in their order and with their kinds: 31 categories in
    [src/app.py], 8 in [src/backend/app.py]. *)
Theorem create_default_categories_fresh s user_id :
  filter (fun c => c_user_id c =? user_id) (categories_tbl s) = [] ->
  map (fun c => (c_name c, c_type c))
      (filter (fun c => c_user_id c =? user_id)
              (categories_tbl (create_default_categories s user_id)))
  = DEFAULT_CATEGORIES
  /\ map (fun c => (c_name c, c_type c))
         (filter (fun c => c_user_id c =? user_id)
                 (categories_tbl (Backend.create_default_categories s user_id)))
     = Backend.DEFAULT_CATEGORIES.
Proof.
  intros Hnone.
  assert (Hname : forall ds (d : string * string), In d ds ->
             category_by_name s user_id (fst d) = None).
  { intros ds d _. unfold category_by_name. apply find_none_filter.
    induction (categories_tbl s) as [|c l IH]; [reflexivity|].
    cbn [filter] in *. destruct (c_user_id c =? user_id); [discriminate|].
    cbn [andb]. exact (IH Hnone). }
  assert (Hgen : forall ds, NoDup (map fst ds) ->
             map (fun c => (c_name c, c_type c))
                 (filter (fun c => c_user_id c =? user_id)
                         (categories_tbl (seed_categories ds s user_id)))
             = ds).
  { intros ds Hnd.
    destruct (seed_fresh ds s user_id Hnd (Hname ds))
      as (created & E & Hmap & Hown).
    rewrite E. cbn [categories_tbl]. rewrite filter_app, Hnone. cbn [app].
    rewrite filter_all; [exact Hmap|].
    refine (Forall_impl _ _ Hown). intros c Hc. apply Z.eqb_eq. exact Hc. }
  split; apply Hgen; apply default_names_distinct.
Qed.

Lemma create_default_categories_fresh_witness :
  filter (fun c => c_user_id c =? 7) (categories_tbl food_salary) = []
  /\ List.length
       (filter (fun c => c_user_id c =? 7)
               (categories_tbl (create_default_categories food_salary 7)))
     = 31%nat.
Proof.
  split; [reflexivity|].
  rewrite <- (length_map (fun c => (c_name c, c_type c))).
  rewrite (proj1 (create_default_categories_fresh food_salary 7 eq_refl)).
  reflexivity.
Defined.

(** * The handlers of single rows *)

(** The row that [.first()] finds splits the table; updating or deleting
    it touches that row only. *)
Lemma find_split {A} (p : A -> bool) (f : A -> A) l x :
  find p l = Some x ->
  exists before after,
    l = before ++ x :: after
    /\ Forall (fun y => p y = false) before
    /\ p x = true
    /\ update_first p f l = before ++ f x :: after
    /\ delete_first p l = before ++ after.
Proof.
  induction l as [|y l IH]; intros H; [discriminate|].
  cbn [find update_first delete_first] in *. destruct (p y) eqn:Py.
  - injection H as ->. exists [], l. repeat split; auto.
  - destruct (IH H) as (b & a & -> & Hb & Px & Hu & Hd).
    exists (y :: b), a. cbn [app]. rewrite Hu, Hd. repeat split; auto.
Qed.

Lemma NoDup_app_remove_mid {A} (l1 l2 : list A) x :
  NoDup (l1 ++ x :: l2) -> NoDup (l1 ++ l2).
Proof. apply NoDup_remove_1. Qed.

Lemma patch_category_keeps cat data cat' :
  patch_category cat data = Some cat' ->
  c_id cat' = c_id cat /\ c_user_id cat' = c_user_id cat.
Proof.
  unfold patch_category.
  destruct (match dict_get "name" data with
            | None => Some (c_name cat)
            | Some (Some (JStr n)) => Some n
            | Some _ => None
            end); [|discriminate].
  intros [= <-]. split; reflexivity.
Qed.

Lemma patch_expense_keeps exp data exp' :
  patch_expense exp data = Some exp' ->
  e_id exp' = e_id exp /\ e_user_id exp' = e_user_id exp
  /\ e_date exp' = e_date exp.
Proof.
  unfold patch_expense.
  destruct (match dict_get "category_id" data with
            | None => Some (e_category_id exp)
            | Some (Some (JInt c)) => Some c
            | Some _ => None
            end); [|discriminate].
  destruct (match dict_get "amount" data with
            | None => Some (e_amount exp)
            | Some (Some v) => float_of v
            | Some None => None
            end); [|discriminate].
  destruct (patch_text data "merchant" _); [|discriminate].
  destruct (patch_text data "account" _); [|discriminate].
  destruct (patch_text data "project" _); [|discriminate].
  destruct (patch_text data "tags" _); [|discriminate].
  destruct (patch_text data "note" _); [|discriminate].
  intros [= <-]. repeat split.
Qed.

Lemma wf_add_category s c :
  wf_store s -> c_id c = next_id (map c_id (categories_tbl s)) ->
  wf_store (add_category s c).
Proof.
  intros [W1 W2 W3] E. constructor; [|exact W2|exact W3].
  unfold add_category. cbn [categories_tbl]. rewrite map_app.
  apply NoDup_snoc; [exact W1|]. cbn [map]. rewrite E. apply next_id_fresh.
Qed.

Lemma wf_add_expense s e :
  wf_store s -> e_id e = next_id (map e_id (expenses_tbl s)) ->
  valid_date (e_date e) -> wf_store (add_expense s e).
Proof.
  intros [W1 W2 W3] E V. constructor; [exact W1| |].
  - unfold add_expense. cbn [expenses_tbl]. rewrite map_app.
    apply NoDup_snoc; [exact W2|]. cbn [map]. rewrite E. apply next_id_fresh.
  - unfold add_expense. cbn [expenses_tbl]. apply Forall_app. split; [exact W3|].
    repeat constructor. exact V.
Qed.

Lemma categories_wf s uid request :
  wf_store s -> wf_store (snd (categories s uid request)).
Proof.
  intros W. unfold categories. destruct (method request); try exact W.
  destruct (validate_required_fields _ _); [exact W|].
  destruct (get_text _ _); [|exact W].
  destruct (match get (json request) "type" with
            | Some v => as_text v
            | None => Some "expense"%string
            end); [|exact W].
  cbn [snd]. apply wf_add_category; [exact W | reflexivity].
Qed.

Lemma edit_category_wf s uid cid request :
  wf_store s -> wf_store (snd (edit_category s uid cid request)).
Proof.
  intros W. unfold edit_category. cbv zeta.
  destruct (category_of_user s cid uid) as [cat|] eqn:F; [|exact W].
  unfold category_of_user in F.
  destruct (find_split _ (fun _ => cat) _ _ F) as (b & a & El & _ & _ & _ & Hd).
  destruct W as [W1 W2 W3].
  destruct (method request); try (constructor; assumption).
  - destruct (patch_category cat (json request)) as [cat'|] eqn:P;
      [|constructor; assumption].
    destruct (find_split _ (fun _ => cat') _ _ F) as (b' & a' & El' & _ & _ & Hu & _).
    cbn [snd]. constructor; cbn [categories_tbl expenses_tbl]; try assumption.
    rewrite Hu. rewrite El' in W1. rewrite map_app in *. cbn [map] in *.
    rewrite (proj1 (patch_category_keeps _ _ _ P)). exact W1.
  - cbn [snd]. constructor; cbn [categories_tbl expenses_tbl]; try assumption.
    rewrite Hd. rewrite El in W1. rewrite map_app in *. cbn [map] in W1.
    exact (NoDup_remove_1 _ _ _ W1).
Qed.

Lemma expenses_wf s uid request :
  wf_store s -> wf_store (snd (expenses s uid request)).
Proof.
  intros W. unfold expenses. destruct (method request); try exact W.
  - destruct (date_bounds _); exact W.
  - destruct (validate_required_fields _ _); [exact W|].
    destruct (get (json request) "date") as [[z|date_str]|]; try exact W.
    destruct (validate_date date_str) as [date_obj|] eqn:Ed; [|exact W].
    destruct (match get (json request) "category_id" with
              | Some (JInt cid) =>
                  match category_of_user s cid uid with
                  | Some _ => Some cid
                  | None => None
                  end
              | _ => None
              end); [|exact W].
    destruct (match get (json request) "amount" with
              | Some v => float_of v
              | None => None
              end); [|exact W].
    cbn [snd]. apply wf_add_expense; [exact W | reflexivity |].
    exact (validate_date_valid _ _ Ed).
Qed.

Lemma edit_expense_wf s uid eid request :
  wf_store s -> wf_store (snd (edit_expense s uid eid request)).
Proof.
  intros W. unfold edit_expense. cbv zeta.
  destruct (expense_of_user s eid uid) as [exp|] eqn:F; [|exact W].
  unfold expense_of_user in F. pose proof W as [W1 W2 W3].
  assert (Hcommit : forall e',
             e_id e' = e_id exp -> valid_date (e_date e') ->
             wf_store
               (mkStore (categories_tbl s)
                  (update_first (fun e => (e_id e =? eid) && (e_user_id e =? uid))
                     (fun _ => e') (expenses_tbl s)))).
  { intros e' Eid V.
    destruct (find_split _ (fun _ => e') _ _ F) as (b & a & El & _ & _ & Hu & _).
    constructor; cbn [categories_tbl expenses_tbl]; [exact W1| |].
    - rewrite Hu. rewrite El in W2. rewrite map_app in *. cbn [map] in *.
      rewrite Eid. exact W2.
    - rewrite Hu. rewrite El in W3. apply Forall_app in W3.
      destruct W3 as [Wb Wa]. inversion Wa; subst.
      apply Forall_app. split; [exact Wb|]. constructor; assumption. }
  assert (Vexp : valid_date (e_date exp)).
  { apply find_some in F. destruct F as [Hin _].
    exact (proj1 (Forall_forall _ _) W3 exp Hin). }
  destruct (method request); try exact W.
  - destruct (dict_get "date" (json request)) as [[[z|date_str]|]|]; try exact W.
    + destruct (validate_date date_str) as [date_obj|] eqn:Ed; [|exact W].
      destruct (patch_expense exp (json request)) as [e'|] eqn:P; [|exact W].
      cbn [option_map snd]. apply Hcommit.
      * cbn [set_date e_id]. exact (proj1 (patch_expense_keeps _ _ _ P)).
      * cbn [set_date e_date]. exact (validate_date_valid _ _ Ed).
    + destruct (patch_expense exp (json request)) as [e'|] eqn:P; [|exact W].
      cbn [snd]. destruct (patch_expense_keeps _ _ _ P) as (Eid & _ & Ed).
      apply Hcommit; [exact Eid | rewrite Ed; exact Vexp].
  - cbn [snd].
    destruct (find_split _ (fun _ => exp) _ _ F) as (b & a & El & _ & _ & _ & Hd).
    constructor; cbn [categories_tbl expenses_tbl]; [exact W1| |].
    + rewrite Hd. rewrite El in W2. rewrite map_app in *. cbn [map] in W2.
      exact (NoDup_remove_1 _ _ _ W2).
    + rewrite Hd. rewrite El in W3. apply Forall_app in W3.
      destruct W3 as [Wb Wa]. inversion Wa; subst.
      apply Forall_app. split; assumption.
Qed.

Lemma import_rows_wf uid rows : forall committed session,
  wf_store committed -> wf_store session ->
  wf_store (snd (import_rows uid committed session rows)).
Proof.
  induction rows as [|row rest IH]; intros committed session Wc Ws;
    [exact Ws|].
  cbn [import_rows].
  destruct (validate_required_fields row _); [exact Wc|].
  destruct (get row "category") as [name0|]; [|exact Wc].
  destruct (get row "amount") as [a|]; [|exact Wc].
  destruct (get row "date") as [d|]; [|exact Wc].
  destruct (validate_date d) as [dt|] eqn:Ed; [|exact Wc].
  destruct (category_by_name session uid name0) as [cat|].
  - destruct (float_of_str a) as [amt|]; [|exact Wc].
    apply IH; [exact Wc|]. apply wf_add_expense; [exact Ws | reflexivity |].
    exact (validate_date_valid _ _ Ed).
  - assert (W1 : wf_store
                   (add_category session
                      (mkCategory (next_id (map c_id (categories_tbl session)))
                         uid name0
                         (match get row "type" with
                          | Some t => t
                          | None => "expense"%string
                          end))))
      by (apply wf_add_category; [exact Ws | reflexivity]).
    destruct (float_of_str a) as [amt|]; [|exact W1].
    apply IH; [exact W1|]. apply wf_add_expense; [exact W1 | reflexivity |].
    exact (validate_date_valid _ _ Ed).
Qed.

(** X8.  Every handler that writes keeps what the database guarantees:
    after [categories], [edit_category], [expenses], [edit_expense] and
    [import_csv], whatever the request and however it ends, primary keys
    are unique and every stored date is a date of the calendar. *)
Theorem handlers_keep_wf s uid id request :
  wf_store s ->
  wf_store (snd (categories s uid request))
  /\ wf_store (snd (edit_category s uid id request))
  /\ wf_store (snd (expenses s uid request))
  /\ wf_store (snd (edit_expense s uid id request))
  /\ wf_store (snd (import_csv s uid request)).
Proof.
  intros W. split; [apply categories_wf; exact W|].
  split; [apply edit_category_wf; exact W|].
  split; [apply expenses_wf; exact W|].
  split; [apply edit_expense_wf; exact W|].
  unfold import_csv. destruct (file request) as [[filename table]|]; [|exact W].
  destruct (negb (endswith filename ".csv")); [exact W|].
  apply import_rows_wf; exact W.
Qed.

Lemma handlers_keep_wf_witness :
  wf_store empty_store
  /\ wf_store (snd (import_csv empty_store 1 (upload "ledger.csv" bad_third_row))).
Proof.
  assert (W : wf_store empty_store) by (constructor; constructor).
  split; [exact W|].
  exact (proj2 (proj2 (proj2 (proj2
           (handlers_keep_wf empty_store 1 0
              (upload "ledger.csv" bad_third_row) W))))).
Defined.

(** X9.  A request to [categories], [edit_category], [expenses] or
    [edit_expense] that is not answered with 200 or 201 leaves the store as
    it was: a bad field, a bad date, a category or transaction that is not
    the caller's, or a failing commit writes nothing. *)
Theorem failed_request_changes_nothing s uid id request :
  (fst (fst (categories s uid request)) = 201
   \/ snd (categories s uid request) = s)
  /\ (fst (fst (edit_category s uid id request)) = 200
      \/ snd (edit_category s uid id request) = s)
  /\ (fst (fst (expenses s uid request)) = 201
      \/ snd (expenses s uid request) = s)
  /\ (fst (fst (edit_expense s uid id request)) = 200
      \/ snd (edit_expense s uid id request) = s).
Proof.
  split; [|split; [|split]].
  - unfold categories. destruct (method request); auto.
    destruct (validate_required_fields _ _); auto.
    destruct (get_text _ _); auto.
    destruct (match get (json request) "type" with
              | Some v => as_text v
              | None => Some "expense"%string
              end); auto.
  - unfold edit_category. cbv zeta.
    destruct (category_of_user s id uid); auto.
    destruct (method request); auto.
    destruct (patch_category _ _); auto.
  - unfold expenses. destruct (method request); auto.
    + destruct (date_bounds _); auto.
    + destruct (validate_required_fields _ _); auto.
      destruct (get (json request) "date") as [[z|date_str]|]; auto.
      destruct (validate_date date_str); auto.
      destruct (match get (json request) "category_id" with
                | Some (JInt cid) =>
                    match category_of_user s cid uid with
                    | Some _ => Some cid
                    | None => None
                    end
                | _ => None
                end); auto.
      destruct (match get (json request) "amount" with
                | Some v => float_of v
                | None => None
                end); auto.
  - unfold edit_expense. cbv zeta.
    destruct (expense_of_user s id uid); auto.
    destruct (method request); auto.
    destruct (dict_get "date" (json request)) as [[[z|date_str]|]|]; auto.
    + destruct (validate_date date_str); auto.
      destruct (patch_expense _ _); cbn [option_map]; auto.
    + destruct (patch_expense _ _); auto.
Qed.

(** X10.  Reading never writes: listing categories or transactions,
    [export_csv], [summary] and [analysis] return the store they were
    given, whatever the arguments and whatever the answer. *)
Theorem reading_changes_nothing s uid a request today :
  snd (categories s uid (get_request a)) = s
  /\ snd (expenses s uid (get_request a)) = s
  /\ snd (export_csv s uid request) = s
  /\ snd (summary s uid request today) = s
  /\ snd (analysis s uid request) = s.
Proof.
  split; [reflexivity|]. split; [|split; [|split]].
  - unfold expenses, get_request. cbn [method args].
    destruct (date_bounds a); reflexivity.
  - unfold export_csv. destruct (date_bounds _); reflexivity.
  - destruct (summary_cases s uid request today)
      as [(code & msg & _ & ->)|(p & x & y & ->)]; reflexivity.
  - unfold analysis. cbv zeta. destruct (group_by_of _); [|reflexivity].
    destruct (period_of _); [|reflexivity].
    destruct (analysis_bounds _ _); reflexivity.
Qed.

(** X11.  A category that [categories] created is listed from then on: the
    caller's list is the old list followed by the new category, which has
    the id that was answered and a key that no category had; the list of
    every other tenant is unchanged.  The name is not compared with the
    names the caller has. *)
Theorem category_created_is_listed s uid data m id s' :
  categories s uid (post_request data) = ((201, MsgId m id), s') ->
  exists name type,
    get_text data "name" = Some name
    /\ fst (categories s' uid (get_request []))
       = (200, CategoryList
                 (filter (fun c => c_user_id c =? uid) (categories_tbl s)
                  ++ [mkCategory id uid name type]))
    /\ ~ In id (map c_id (categories_tbl s))
    /\ (forall other, other <> uid ->
          fst (categories s' other (get_request []))
          = fst (categories s other (get_request []))).
Proof.
  unfold categories at 1, post_request. cbn [method json].
  destruct (validate_required_fields _ _); [discriminate|].
  destruct (get_text data "name") as [name|]; [|discriminate].
  destruct (match get data "type" with
            | Some v => as_text v
            | None => Some "expense"%string
            end) as [type|]; [|discriminate].
  intros E. injection E as _ Eid Es. subst s' id.
  exists name, type. split; [reflexivity|].
  unfold categories, get_request, add_category.
  cbn [method fst categories_tbl c_id].
  split; [|split].
  - rewrite filter_app. cbn [filter c_user_id]. rewrite Z.eqb_refl. reflexivity.
  - apply next_id_fresh.
  - intros other Hne. rewrite filter_app. cbn [filter c_user_id].
    destruct (Z.eqb_spec uid other); [congruence|]. rewrite app_nil_r.
    reflexivity.
Qed.

Lemma category_created_is_listed_witness :
  exists name type,
    get_text [("name", Some (JStr "Food")); ("type", Some (JStr "expense"))]%string
             "name" = Some name
    /\ fst (categories (mkStore [mkCategory 1 1 "Food" "expense"] []) 1
              (get_request []))
       = (200, CategoryList
                 (filter (fun c => c_user_id c =? 1) (categories_tbl empty_store)
                  ++ [mkCategory 1 1 name type]))
    /\ ~ In 1 (map c_id (categories_tbl empty_store))
    /\ (forall other, other <> 1 ->
          fst (categories (mkStore [mkCategory 1 1 "Food" "expense"] []) other
                 (get_request []))
          = fst (categories empty_store other (get_request []))).
Proof.
  apply (category_created_is_listed empty_store 1
           [("name", Some (JStr "Food")); ("type", Some (JStr "expense"))]%string
           "Category added" 1).
  reflexivity.
Defined.

Lemma find_none_forall {A} (p : A -> bool) l :
  Forall (fun x => p x = false) l -> find p l = None.
Proof.
  induction 1 as [|x l Hx _ IH]; [reflexivity|]. cbn [find]. rewrite Hx. exact IH.
Qed.

Lemma find_skip_mid {A} (p : A -> bool) l1 x l2 :
  p x = false -> find p (l1 ++ x :: l2) = find p (l1 ++ l2).
Proof.
  intros Px. induction l1 as [|y l1 IH]; cbn [app find].
  - rewrite Px. reflexivity.
  - destruct (p y); [reflexivity | exact IH].
Qed.

Lemma other_ids_differ {A} (key : A -> Z) l1 x l2 :
  NoDup (map key (l1 ++ x :: l2)) ->
  Forall (fun y => (key y =? key x) = false) (l1 ++ l2).
Proof.
  intros Hnd. rewrite map_app in Hnd. cbn [map] in Hnd.
  apply NoDup_remove_2 in Hnd. apply Forall_forall. intros y Hy.
  apply Z.eqb_neq. intros E. apply Hnd. rewrite <- E, <- map_app.
  apply in_map. exact Hy.
Qed.

(** X12.  Deleting a category does not touch the transactions: they stay,
    those of the deleted category now reference nothing, drop out of the
    join that [summary] and [analysis] are computed from, and are exported
    under "Unknown"; every other category is as it was. *)
Theorem category_delete_orphans s uid cid m s' :
  wf_store s ->
  edit_category s uid cid delete_request = ((200, Msg m), s') ->
  expenses_tbl s' = expenses_tbl s
  /\ category_by_id s' cid = None
  /\ filter (fun ec => e_category_id (fst ec) =? cid) (join_category s') = []
  /\ (forall e, e_category_id e = cid ->
        nth 2 (export_row s' e) EmptyString = "Unknown"%string)
  /\ (forall other, other <> cid ->
        category_by_id s' other = category_by_id s other).
Proof.
  intros [W1 _ _]. unfold edit_category, delete_request. cbv zeta.
  cbn [method].
  destruct (category_of_user s cid uid) as [cat|] eqn:F; [|discriminate].
  intros E. injection E as _ Es. subst s'. cbn [expenses_tbl].
  unfold category_of_user in F.
  destruct (find_split _ (fun _ => cat) _ _ F) as (b & a & El & _ & Px & _ & Hd).
  apply andb_true_iff in Px. destruct Px as [Pid _]. apply Z.eqb_eq in Pid.
  rewrite El in W1. pose proof (other_ids_differ c_id _ _ _ W1) as Hdiff.
  rewrite Pid in Hdiff.
  assert (Hnone : category_by_id
                    (mkStore (delete_first
                                (fun c => (c_id c =? cid) && (c_user_id c =? uid))
                                (categories_tbl s)) (expenses_tbl s)) cid
                  = None).
  { unfold category_by_id. cbn [categories_tbl]. rewrite Hd.
    apply find_none_forall. exact Hdiff. }
  split; [reflexivity|]. split; [exact Hnone|]. split; [|split].
  - clear Hnone. unfold join_category. cbn [categories_tbl expenses_tbl].
    rewrite Hd.
    induction (expenses_tbl s) as [|e es IH]; [reflexivity|].
    cbn [flat_map]. rewrite filter_app, IH, app_nil_r.
    destruct (Z.eqb_spec (e_category_id e) cid) as [Ec|Ec].
    + rewrite Ec.
      replace (filter (fun c => c_id c =? cid) (b ++ a)) with (@nil Category);
        [reflexivity|].
      symmetry. apply find_none_filter. apply find_none_forall. exact Hdiff.
    + apply find_none_filter. apply find_none_forall. apply Forall_forall.
      intros ec Hin. apply in_map_iff in Hin. destruct Hin as (c & <- & _).
      cbn [fst]. apply Z.eqb_neq. exact Ec.
  - intros e Ee. unfold export_row. cbn [nth]. rewrite Ee, Hnone. reflexivity.
  - intros other Hne. unfold category_by_id. cbn [categories_tbl].
    rewrite Hd, El. symmetry. apply find_skip_mid.
    apply Z.eqb_neq. congruence.
Qed.

Lemma category_delete_orphans_witness :
  wf_store bare_expense
  /\ expenses_tbl (snd (edit_category bare_expense 1 1 delete_request))
     = expenses_tbl bare_expense
  /\ category_by_id (snd (edit_category bare_expense 1 1 delete_request)) 1
     = None.
Proof.
  assert (W : wf_store bare_expense).
  { constructor; vm_compute; repeat constructor; cbn; intuition discriminate. }
  split; [exact W|].
  destruct (category_delete_orphans bare_expense 1 1 "Category deleted"
              (snd (edit_category bare_expense 1 1 delete_request)) W eq_refl)
    as (H1 & H2 & _).
  split; assumption.
Defined.

(** X13.  A successful PATCH of a category rewrites that row in place and
    nothing else: its id and owner stay, the transactions stay, the name
    stays when the patch has no [name], and the kind either stays or
    becomes [expense] or [income] -- any other [type] in the patch is
    ignored without an error. *)
Theorem category_patch_in_place s uid cid data m s' :
  edit_category s uid cid (patch_request data) = ((200, Msg m), s') ->
  exists before cat after cat',
    categories_tbl s = before ++ cat :: after
    /\ categories_tbl s' = before ++ cat' :: after
    /\ expenses_tbl s' = expenses_tbl s
    /\ c_id cat = cid /\ c_user_id cat = uid
    /\ c_id cat' = cid /\ c_user_id cat' = uid
    /\ (dict_get "name" data = None -> c_name cat' = c_name cat)
    /\ (forall n, dict_get "name" data = Some (Some (JStr n)) -> c_name cat' = n)
    /\ (c_type cat' = c_type cat
        \/ (dict_get "type" data = Some (Some (JStr (c_type cat')))
            /\ (c_type cat' = "expense"%string \/ c_type cat' = "income"%string))).
Proof.
  unfold edit_category, patch_request. cbv zeta. cbn [method json].
  destruct (category_of_user s cid uid) as [cat|] eqn:F; [|discriminate].
  destruct (patch_category cat data) as [cat'|] eqn:P; [|discriminate].
  intros E. injection E as _ Es. subst s'. unfold category_of_user in F.
  destruct (find_split _ (fun _ => cat') _ _ F) as (b & a & El & _ & Px & Hu & _).
  apply andb_true_iff in Px. destruct Px as [Pid Pu].
  apply Z.eqb_eq in Pid, Pu.
  destruct (patch_category_keeps _ _ _ P) as [Kid Ku].
  exists b, cat, a, cat'. cbn [categories_tbl expenses_tbl].
  split; [exact El|]. split; [exact Hu|]. split; [reflexivity|].
  split; [exact Pid|]. split; [exact Pu|].
  split; [congruence|]. split; [congruence|].
  unfold patch_category in P.
  destruct (dict_get "name" data) as [[[z|n]|]|] eqn:Dn; try discriminate;
    injection P as <-; cbn [c_name c_type].
  - split; [discriminate|]. split; [intros n' [= ->]; reflexivity|].
    destruct (dict_get "type" data) as [[[z|t]|]|]; auto.
    destruct (String.eqb t "expense" || String.eqb t "income") eqn:Et; auto.
    right. split; [reflexivity|]. apply orb_true_iff in Et.
    rewrite !String.eqb_eq in Et. exact Et.
  - split; [reflexivity|]. split; [discriminate|].
    destruct (dict_get "type" data) as [[[z|t]|]|]; auto.
    destruct (String.eqb t "expense" || String.eqb t "income") eqn:Et; auto.
    right. split; [reflexivity|]. apply orb_true_iff in Et.
    rewrite !String.eqb_eq in Et. exact Et.
Qed.

Lemma category_patch_in_place_witness :
  exists before cat after cat',
    categories_tbl food_salary = before ++ cat :: after
    /\ categories_tbl
         (snd (edit_category food_salary 1 2
                 (patch_request [("type", Some (JStr "bonus"))]%string)))
       = before ++ cat' :: after
    /\ c_id cat' = 2.
Proof.
  destruct (category_patch_in_place food_salary 1 2
              [("type", Some (JStr "bonus"))]%string "Category updated"
              (snd (edit_category food_salary 1 2
                      (patch_request [("type", Some (JStr "bonus"))]%string)))
              eq_refl)
    as (b & c & a & c' & H1 & H2 & _ & _ & _ & H3 & _).
  exists b, c, a, c'. auto.
Defined.

(** * Transactions: listing, patching, deleting *)

Lemma date_cmp_antisym a b : date_cmp b a = CompOpp (date_cmp a b).
Proof.
  unfold date_cmp.
  rewrite (Z.compare_antisym (year a) (year b)),
    (Z.compare_antisym (month a) (month b)),
    (Z.compare_antisym (day a) (day b)).
  destruct (year a ?= year b), (month a ?= month b), (day a ?= day b);
    reflexivity.
Qed.

Lemma date_leb_total a b : date_leb a b = true \/ date_leb b a = true.
Proof.
  unfold date_leb. rewrite (date_cmp_antisym a b).
  destruct (date_cmp a b); cbn; auto.
Qed.

(** X14.  [expenses] lists the caller's transactions whose date is within
    the bounds given, both bounds included, latest first: the answer is a
    rearrangement of exactly those rows, in descending order of date, and
    holds no row of another tenant. *)
Theorem expenses_listing s uid a l s' :
  expenses s uid (get_request a) = ((200, ExpenseList l), s') ->
  exists in_range,
    date_bounds a = inr in_range
    /\ Permutation l
         (filter (fun e => (e_user_id e =? uid) && in_range e) (expenses_tbl s))
    /\ Sorted (fun x y => date_leb (e_date y) (e_date x) = true) l
    /\ (forall e, In e l -> e_user_id e = uid /\ In e (expenses_tbl s))
    /\ (dict_get "from" a = None -> dict_get "to" a = None ->
        forall e, in_range e = true)
    /\ (forall f t df dt,
          dict_get "from" a = Some (Some f) -> dict_get "to" a = Some (Some t) ->
          validate_date f = Some df -> validate_date t = Some dt ->
          forall e, in_range e
                    = date_leb df (e_date e) && date_leb (e_date e) dt).
Proof.
  unfold expenses, get_request. cbn [method args].
  destruct (date_bounds a) as [msg|in_range] eqn:B; [discriminate|].
  intros E. injection E as El _. subst l. exists in_range.
  split; [reflexivity|].
  set (rows := filter (fun e => (e_user_id e =? uid) && in_range e) (expenses_tbl s)).
  assert (P : Permutation
                (sort_by (fun x y => date_leb (e_date y) (e_date x)) rows) rows)
    by apply sort_by_perm.
  split; [exact P|]. split; [|split; [|split]].
  - apply (sort_by_sorted (fun x y => date_leb (e_date y) (e_date x))).
    intros x y. apply date_leb_total.
  - intros e Hin. apply (Permutation_in _ P) in Hin. unfold rows in Hin.
    apply filter_In in Hin. destruct Hin as [Hin Hp].
    apply andb_true_iff in Hp. destruct Hp as [Hu _]. apply Z.eqb_eq in Hu.
    split; assumption.
  - intros Hf Ht e. unfold date_bounds in B. rewrite Hf, Ht in B.
    injection B as <-. reflexivity.
  - intros f t df dt Hf Ht Vf Vt e. unfold date_bounds in B.
    rewrite Hf, Ht, Vf, Vt in B. injection B as <-. reflexivity.
Qed.

Lemma expenses_listing_witness :
  exists in_range,
    date_bounds [("from", Some "2024-03-10"); ("to", Some "2024-03-31")]%string
    = inr in_range
    /\ Permutation
         [mkExpense 3 1 2 2000 (mkdate 2024 3 20) None None None None None;
          mkExpense 2 1 1 50 (mkdate 2024 3 15) None None None None None]
         (filter (fun e => (e_user_id e =? 1) && in_range e)
                 (expenses_tbl march_2024)).
Proof.
  destruct (expenses_listing march_2024 1
              [("from", Some "2024-03-10"); ("to", Some "2024-03-31")]%string
              [mkExpense 3 1 2 2000 (mkdate 2024 3 20) None None None None None;
               mkExpense 2 1 1 50 (mkdate 2024 3 15) None None None None None]
              march_2024 eq_refl)
    as (r & B & P & _).
  exists r. split; assumption.
Defined.

(** X15.  A transaction that [expenses] created is listed exactly once:
    the listing of the same tenant, without bounds, holds one row with the
    id that was answered, and it is the caller's. *)
Theorem created_expense_listed_once s uid data m id s' :
  wf_store s ->
  expenses s uid (post_request data) = ((201, MsgId m id), s') ->
  exists e l,
    fst (expenses s' uid (get_request [])) = (200, ExpenseList l)
    /\ e_id e = id /\ e_user_id e = uid
    /\ filter (fun x => e_id x =? id) l = [e].
Proof.
  intros W E.
  destruct (expenses_post_same_tenant _ _ _ _ _ _ E) as (e & cat & -> & Hu & Hid & _).
  assert (Hfresh : ~ In id (map e_id (expenses_tbl s))).
  { revert E. unfold expenses, post_request. cbn [method json].
    destruct (validate_required_fields _ _); [discriminate|].
    destruct (get data "date") as [[z|date_str]|]; try discriminate.
    destruct (validate_date date_str); [|discriminate].
    destruct (match get data "category_id" with
              | Some (JInt cid) =>
                  match category_of_user s cid uid with
                  | Some _ => Some cid
                  | None => None
                  end
              | _ => None
              end); [|discriminate].
    destruct (match get data "amount" with
              | Some v => float_of v
              | None => None
              end); [|discriminate].
    intros E. injection E as _ <- _. apply next_id_fresh. }
  eexists e, _. unfold expenses, get_request, add_expense.
  cbn [method args date_bounds dict_get fst expenses_tbl].
  split; [reflexivity|]. split; [exact Hid|]. split; [exact Hu|].
  set (rows := filter (fun x => (e_user_id x =? uid) && true)
                      (expenses_tbl s ++ [e])).
  assert (P : Permutation
                (sort_by (fun x y => date_leb (e_date y) (e_date x)) rows) rows)
    by apply sort_by_perm.
  assert (F : filter (fun x => e_id x =? id) rows = [e]).
  { unfold rows. rewrite filter_app. cbn [filter]. rewrite Hu, Z.eqb_refl.
    cbn [andb]. rewrite filter_app. cbn [filter]. rewrite Hid, Z.eqb_refl.
    replace (filter (fun x => e_id x =? id)
               (filter (fun x => (e_user_id x =? uid) && true) (expenses_tbl s)))
      with (@nil Expense); [reflexivity|].
    symmetry. apply find_none_filter. apply find_none_forall.
    apply Forall_forall. intros x Hx. apply filter_In in Hx.
    destruct Hx as [Hx _]. apply Z.eqb_neq. intros Ex. apply Hfresh.
    rewrite <- Ex. apply in_map. exact Hx. }
  assert (PF : Permutation
                 (filter (fun x => e_id x =? id)
                    (sort_by (fun x y => date_leb (e_date y) (e_date x)) rows))
                 [e]).
  { rewrite <- F. clear F. induction P.
    - constructor.
    - cbn [filter]. destruct (e_id x =? id); [constructor|]; assumption.
    - cbn [filter]. destruct (e_id y =? id), (e_id x =? id);
        try reflexivity. apply perm_swap.
    - etransitivity; eassumption. }
  apply Permutation_length_1_inv. symmetry. exact PF.
Qed.

Lemma created_expense_listed_once_witness :
  wf_store food_salary
  /\ exists e l,
       fst (expenses bare_expense 1 (get_request [])) = (200, ExpenseList l)
       /\ e_id e = 1 /\ e_user_id e = 1
       /\ filter (fun x => e_id x =? 1) l = [e].
Proof.
  assert (W : wf_store food_salary).
  { constructor; vm_compute; repeat constructor; cbn; intuition discriminate. }
  split; [exact W|].
  exact (created_expense_listed_once food_salary 1
           [("category_id", Some (JInt 1)); ("amount", Some (JInt 100));
            ("date", Some (JStr "2024-03-01"))]%string
           "Expense added" 1 bare_expense W eq_refl).
Defined.

Lemma patch_text_spec data field old new :
  patch_text data field old = Some new ->
  (dict_get field data = None -> new = old)
  /\ (dict_get field data = Some None -> new = None)
  /\ (forall t, dict_get field data = Some (Some (JStr t)) -> new = Some t).
Proof.
  unfold patch_text.
  destruct (dict_get field data) as [[[z|t]|]|]; intros [= <-];
    repeat split; try discriminate; try reflexivity.
  intros t' [= ->]. reflexivity.
Qed.

(** X16.  A successful PATCH of a transaction rewrites that row in place:
    the other rows, the categories, the id and the owner stay; a field that
    the patch does not mention keeps its value; a field that it mentions
    takes the value given ([null] clears a text field, [date] is stored as
    the date it parses to). *)
Theorem expense_patch_in_place s uid eid data m s' :
  edit_expense s uid eid (patch_request data) = ((200, Msg m), s') ->
  exists before old after new,
    expenses_tbl s = before ++ old :: after
    /\ expenses_tbl s' = before ++ new :: after
    /\ categories_tbl s' = categories_tbl s
    /\ e_id old = eid /\ e_user_id old = uid
    /\ e_id new = eid /\ e_user_id new = uid
    /\ (dict_get "category_id" data = None
        -> e_category_id new = e_category_id old)
    /\ (forall c, dict_get "category_id" data = Some (Some (JInt c))
                  -> e_category_id new = c)
    /\ (dict_get "amount" data = None -> e_amount new = e_amount old)
    /\ (forall v, dict_get "amount" data = Some (Some v)
                  -> float_of v = Some (e_amount new))
    /\ (dict_get "date" data = None -> e_date new = e_date old)
    /\ (forall t, dict_get "date" data = Some (Some (JStr t))
                  -> validate_date t = Some (e_date new))
    /\ (forall field get_field,
          In (field, get_field)
             [("merchant"%string, e_merchant); ("account"%string, e_account);
              ("project"%string, e_project); ("tags"%string, e_tags);
              ("note"%string, e_note)] ->
          (dict_get field data = None -> get_field new = get_field old)
          /\ (dict_get field data = Some None -> get_field new = None)
          /\ (forall t, dict_get field data = Some (Some (JStr t))
                        -> get_field new = Some t)).
Proof.
  unfold edit_expense, patch_request. cbv zeta. cbn [method json].
  destruct (expense_of_user s eid uid) as [old|] eqn:F; [|discriminate].
  unfold expense_of_user in F.
  assert (Hfields : forall e',
             patch_expense old data = Some e' ->
             (dict_get "category_id" data = None
              -> e_category_id e' = e_category_id old)
             /\ (forall c, dict_get "category_id" data = Some (Some (JInt c))
                           -> e_category_id e' = c)
             /\ (dict_get "amount" data = None -> e_amount e' = e_amount old)
             /\ (forall v, dict_get "amount" data = Some (Some v)
                           -> float_of v = Some (e_amount e'))
             /\ (forall field get_field,
                   In (field, get_field)
                      [("merchant"%string, e_merchant);
                       ("account"%string, e_account);
                       ("project"%string, e_project); ("tags"%string, e_tags);
                       ("note"%string, e_note)] ->
                   (dict_get field data = None -> get_field e' = get_field old)
                   /\ (dict_get field data = Some None -> get_field e' = None)
                   /\ (forall t, dict_get field data = Some (Some (JStr t))
                                 -> get_field e' = Some t))).
  { intros e' P. unfold patch_expense in P.
    destruct (dict_get "category_id" data) as [[[c|t]|]|] eqn:Dc;
      try discriminate;
      destruct (dict_get "amount" data) as [[v|]|] eqn:Da; try discriminate;
      try (destruct (float_of v) as [amt|] eqn:Fv; [|discriminate]);
      destruct (patch_text data "merchant" _) as [me|] eqn:P1; try discriminate;
      destruct (patch_text data "account" _) as [ac|] eqn:P2; try discriminate;
      destruct (patch_text data "project" _) as [pr|] eqn:P3; try discriminate;
      destruct (patch_text data "tags" _) as [ta|] eqn:P4; try discriminate;
      destruct (patch_text data "note" _) as [no|] eqn:P5; try discriminate;
      injection P as <-;
      cbn [e_category_id e_amount];
      (split; [try discriminate; reflexivity|]);
      (split; [intros c' Hc'; try discriminate; congruence|]);
      (split; [try discriminate; reflexivity|]);
      (split; [intros v' Hv'; try discriminate; congruence|]);
      intros field get_field Hin;
      repeat (destruct Hin as [Hin|Hin];
              [injection Hin as <- <-;
               cbn [e_merchant e_account e_project e_tags e_note];
               eauto using patch_text_spec|]);
      destruct Hin. }
  destruct (dict_get "date" data) as [[[z|date_str]|]|] eqn:Dd; try discriminate.
  - destruct (validate_date date_str) as [date_obj|] eqn:Vd; [|discriminate].
    destruct (patch_expense old data) as [e'|] eqn:P; [|discriminate].
    cbn [option_map]. intros E. injection E as _ Es. subst s'.
    destruct (find_split _ (fun _ => set_date e' date_obj) _ _ F)
      as (b & a & El & _ & Px & Hu & _).
    apply andb_true_iff in Px. destruct Px as [Pid Pu].
    apply Z.eqb_eq in Pid, Pu.
    destruct (patch_expense_keeps _ _ _ P) as (Kid & Ku & _).
    destruct (Hfields e' eq_refl) as (H1 & H2 & H3 & H4 & H5).
    exists b, old, a, (set_date e' date_obj).
    cbn [expenses_tbl categories_tbl set_date e_id e_user_id e_category_id
         e_amount e_date].
    split; [exact El|]. split; [exact Hu|]. split; [reflexivity|].
    split; [exact Pid|]. split; [exact Pu|]. split; [congruence|].
    split; [congruence|]. split; [exact H1|]. split; [exact H2|].
    split; [exact H3|]. split; [exact H4|]. split; [discriminate|].
    split; [intros t [= <-]; exact Vd|].
    intros field get_field Hin. specialize (H5 field get_field Hin).
    repeat (destruct Hin as [Hin|Hin]; [injection Hin as <- <-; exact H5|]).
    destruct Hin.
  - destruct (patch_expense old data) as [e'|] eqn:P; [|discriminate].
    intros E. injection E as _ Es. subst s'.
    destruct (find_split _ (fun _ => e') _ _ F)
      as (b & a & El & _ & Px & Hu & _).
    apply andb_true_iff in Px. destruct Px as [Pid Pu].
    apply Z.eqb_eq in Pid, Pu.
    destruct (patch_expense_keeps _ _ _ P) as (Kid & Ku & Kd).
    destruct (Hfields e' eq_refl) as (H1 & H2 & H3 & H4 & H5).
    exists b, old, a, e'. cbn [expenses_tbl categories_tbl].
    split; [exact El|]. split; [exact Hu|]. split; [reflexivity|].
    split; [exact Pid|]. split; [exact Pu|]. split; [congruence|].
    split; [congruence|]. split; [exact H1|]. split; [exact H2|].
    split; [exact H3|]. split; [exact H4|]. split; [intros _; exact Kd|].
    split; [discriminate|]. exact H5.
Qed.

Lemma expense_patch_in_place_witness :
  exists before old after new,
    expenses_tbl march_2024 = before ++ old :: after
    /\ expenses_tbl
         (snd (edit_expense march_2024 1 2
                 (patch_request [("note", Some (JStr "lunch"))]%string)))
       = before ++ new :: after
    /\ e_id new = 2.
Proof.
  destruct (expense_patch_in_place march_2024 1 2
              [("note", Some (JStr "lunch"))]%string "Expense updated"
              (snd (edit_expense march_2024 1 2
                      (patch_request [("note", Some (JStr "lunch"))]%string)))
              eq_refl)
    as (b & o & a & n & H1 & H2 & _ & _ & _ & H3 & _).
  exists b, o, a, n. auto.
Defined.

(** X17.  A successful DELETE of a transaction removes that row and no
    other, leaves the categories alone, and the id no longer resolves for
    the caller, so a second DELETE is answered with an error. *)
Theorem expense_delete_removes_one s uid eid m s' :
  wf_store s ->
  edit_expense s uid eid delete_request = ((200, Msg m), s') ->
  exists before old after,
    expenses_tbl s = before ++ old :: after
    /\ expenses_tbl s' = before ++ after
    /\ categories_tbl s' = categories_tbl s
    /\ e_id old = eid /\ e_user_id old = uid
    /\ expense_of_user s' eid uid = None
    /\ edit_expense s' uid eid delete_request = (internal_error, s').
Proof.
  intros [_ W2 _]. unfold edit_expense at 1, delete_request. cbv zeta.
  cbn [method].
  destruct (expense_of_user s eid uid) as [old|] eqn:F; [|discriminate].
  intros E. injection E as _ Es. subst s'. unfold expense_of_user in F.
  destruct (find_split _ (fun _ => old) _ _ F) as (b & a & El & _ & Px & _ & Hd).
  apply andb_true_iff in Px. destruct Px as [Pid Pu].
  apply Z.eqb_eq in Pid, Pu.
  rewrite El in W2. pose proof (other_ids_differ e_id _ _ _ W2) as Hdiff.
  rewrite Pid in Hdiff.
  assert (Hnone : expense_of_user
                    (mkStore (categories_tbl s)
                       (delete_first
                          (fun e => (e_id e =? eid) && (e_user_id e =? uid))
                          (expenses_tbl s))) eid uid = None).
  { unfold expense_of_user. cbn [expenses_tbl]. rewrite Hd.
    apply find_none_forall. refine (Forall_impl _ _ Hdiff).
    intros x Hx. rewrite Hx. reflexivity. }
  exists b, old, a. cbn [expenses_tbl categories_tbl].
  split; [exact El|]. split; [exact Hd|]. split; [reflexivity|].
  split; [exact Pid|]. split; [exact Pu|]. split; [exact Hnone|].
  apply edit_expense_not_mine. exact Hnone.
Qed.

Lemma expense_delete_removes_one_witness :
  wf_store bare_expense
  /\ expense_of_user (snd (edit_expense bare_expense 1 1 delete_request)) 1 1
     = None.
Proof.
  assert (W : wf_store bare_expense).
  { constructor; vm_compute; repeat constructor; cbn; intuition discriminate. }
  split; [exact W|].
  destruct (expense_delete_removes_one bare_expense 1 1 "Expense deleted"
              (snd (edit_expense bare_expense 1 1 delete_request)) W eq_refl)
    as (b & o & a & _ & _ & _ & _ & _ & H & _).
  exact H.
Defined.

(** * More on the import *)

Lemma import_rows_invalid uid rows : forall committed session,
  forallb row_valid rows = false ->
  fst (fst (import_rows uid committed session rows)) <> 200.
Proof.
  induction rows as [|row rest IH]; intros committed session H;
    [discriminate H|].
  cbn [forallb] in H. cbn [import_rows]. unfold row_valid in H.
  destruct (validate_required_fields row _); [cbn; lia|].
  destruct (get row "category") as [name0|]; [|cbn; lia].
  destruct (get row "amount") as [a|]; [|cbn; lia].
  destruct (get row "date") as [d|]; [|cbn; lia].
  destruct (validate_date d) as [dt|]; [|cbn; lia].
  destruct (float_of_str a) as [amt|].
  - cbn [andb] in H.
    destruct (category_by_name session uid name0); apply IH; exact H.
  - destruct (category_by_name session uid name0); cbn; lia.
Qed.

(** X18.  [import_csv] completes exactly when a file is uploaded, its name
    ends in [.csv], and every row has its required cells, a date that
    parses and an amount that parses. *)
Theorem import_completes_iff s uid request :
  fst (fst (import_csv s uid request)) = 200
  <-> exists filename table,
        file request = Some (filename, table)
        /\ endswith filename ".csv" = true
        /\ forallb row_valid (DictReader table) = true.
Proof.
  unfold import_csv. destruct (file request) as [[filename table]|].
  - destruct (endswith filename ".csv") eqn:Ecsv; cbn [negb].
    + split.
      * intros H. exists filename, table. split; [reflexivity|].
        split; [exact Ecsv|].
        destruct (forallb row_valid (DictReader table)) eqn:V; [reflexivity|].
        exfalso. exact (import_rows_invalid uid _ s s V H).
      * intros (f & t & [= <- <-] & _ & V).
        destruct (import_rows_ok uid (DictReader table) s s V)
          as (c & n & -> & _). reflexivity.
    + split; [cbn; lia|]. intros (f & t & [= <- <-] & E & _). congruence.
  - split; [cbn; lia|]. intros (f & t & E & _). discriminate E.
Qed.

Lemma only_adds_refl uid s : only_adds uid s s.
Proof.
  exists [], []. rewrite !app_nil_r. destruct s. repeat split; constructor.
Qed.

Lemma only_adds_category uid s x c :
  only_adds uid s x -> c_user_id c = uid -> only_adds uid s (add_category x c).
Proof.
  intros (cs & es & -> & Hc & He) Hu. exists (cs ++ [c]), es.
  unfold add_category. cbn [categories_tbl expenses_tbl]. rewrite app_assoc.
  split; [reflexivity|]. split; [|exact He].
  apply Forall_app. split; [exact Hc | repeat constructor; exact Hu].
Qed.

Lemma only_adds_expense uid s x e :
  only_adds uid s x -> e_user_id e = uid -> only_adds uid s (add_expense x e).
Proof.
  intros (cs & es & -> & Hc & He) Hu. exists cs, (es ++ [e]).
  unfold add_expense. cbn [categories_tbl expenses_tbl]. rewrite app_assoc.
  split; [reflexivity|]. split; [exact Hc|].
  apply Forall_app. split; [exact He | repeat constructor; exact Hu].
Qed.

Lemma import_rows_only_adds uid s0 rows : forall committed session,
  only_adds uid s0 committed -> only_adds uid s0 session ->
  only_adds uid s0 (snd (import_rows uid committed session rows)).
Proof.
  induction rows as [|row rest IH]; intros committed session Hc Hs;
    [exact Hs|].
  cbn [import_rows].
  destruct (validate_required_fields row _); [exact Hc|].
  destruct (get row "category") as [name0|]; [|exact Hc].
  destruct (get row "amount") as [a|]; [|exact Hc].
  destruct (get row "date") as [d|]; [|exact Hc].
  destruct (validate_date d) as [dt|]; [|exact Hc].
  destruct (category_by_name session uid name0) as [cat|].
  - destruct (float_of_str a) as [amt|]; [|exact Hc].
    apply IH; [exact Hc|]. apply only_adds_expense; [exact Hs | reflexivity].
  - match goal with
    | |- context [add_category session ?c] =>
        assert (H1 : only_adds uid s0 (add_category session c))
          by (apply only_adds_category; [exact Hs | reflexivity])
    end.
    destruct (float_of_str a) as [amt|]; [|exact H1].
    apply IH; [exact H1|]. apply only_adds_expense; [exact H1 | reflexivity].
Qed.

(** X19.  However an import ends, it only adds: the store afterwards is the
    store before with categories and transactions of the importing tenant
    appended.  No row is changed or removed, and no row of another tenant
    is created. *)
Theorem import_only_adds s uid request :
  only_adds uid s (snd (import_csv s uid request))
  /\ (forall other, other <> uid ->
        filter (fun c => c_user_id c =? other)
               (categories_tbl (snd (import_csv s uid request)))
        = filter (fun c => c_user_id c =? other) (categories_tbl s)
        /\ filter (fun e => e_user_id e =? other)
                  (expenses_tbl (snd (import_csv s uid request)))
           = filter (fun e => e_user_id e =? other) (expenses_tbl s)).
Proof.
  assert (H : only_adds uid s (snd (import_csv s uid request))).
  { unfold import_csv. destruct (file request) as [[filename table]|];
      [|apply only_adds_refl].
    destruct (negb (endswith filename ".csv")); [apply only_adds_refl|].
    apply import_rows_only_adds; apply only_adds_refl. }
  split; [exact H|]. intros other Hne.
  destruct H as (cs & es & -> & Hc & He). cbn [categories_tbl expenses_tbl].
  rewrite !filter_app. split.
  - replace (filter (fun c => c_user_id c =? other) cs) with (@nil Category);
      [apply app_nil_r|].
    symmetry. apply find_none_filter, find_none_forall.
    refine (Forall_impl _ _ Hc). intros c ->. apply Z.eqb_neq. congruence.
  - replace (filter (fun e => e_user_id e =? other) es) with (@nil Expense);
      [apply app_nil_r|].
    symmetry. apply find_none_filter, find_none_forall.
    refine (Forall_impl _ _ He). intros e ->. apply Z.eqb_neq. congruence.
Qed.

